(** * A shallow embedding of vmdb's GRUB step runner

    Source: [vmdb/plugins/grub_plugin.py], class [GrubStepRunner].

    The Python object [state] (attributes [mounts], [parts] and the
    optional [grub_mounts]) and the parts of the host that the runner
    touches (existing paths, file contents, the commands it runs) are
    threaded through an explicit state and exception monad.  External
    commands ([cliapp.runcmd]) succeed or fail according to an oracle
    [cmd_ok] over their argument vector; [runcmd] raises when the command
    exits non-zero, as cliapp does. *)

From Stdlib Require Import Ascii String List Permutation Lia.
From stdpp Require Import base gmap strings.
Import ListNotations.

(* ------------------------------------------------------------------ *)
(** ** Exceptions, events and the world *)

(** Python exceptions that the runner can raise. *)
Inductive exn :=
| KeyError (k : string)              (* dict lookup of a missing key *)
| AssertionError                     (* a failing [assert] *)
| CommandFailed (argv : list string) (* cliapp.runcmd, non-zero exit *)
| IOError (filename : string)        (* open() of a missing file *)
| MissingKeys (keys : list string).  (* the orchestrator's required-key check *)

(** Observable side effects, in the order they happen. *)
Inductive event :=
| EMakedirs (path : string)
| ERun (argv : list string)
| EWriteFile (filename : string).

Record World := mkWorld {
  w_mounts : gmap string string;         (* state.mounts *)
  w_parts : gmap string string;          (* state.parts *)
  w_grub_mounts : option (list string);  (* state.grub_mounts; None: attribute absent *)
  w_paths : list string;                 (* paths for which os.path.exists holds *)
  w_files : gmap string string;          (* file contents on the host *)
  w_log : list event                     (* side effects performed so far *)
}.

Definition set_grub_mounts (g : option (list string)) (w : World) : World :=
  mkWorld (w_mounts w) (w_parts w) g (w_paths w) (w_files w) (w_log w).

Definition add_paths (ps : list string) (w : World) : World :=
  mkWorld (w_mounts w) (w_parts w) (w_grub_mounts w) (ps ++ w_paths w)
          (w_files w) (w_log w).

Definition set_file (f c : string) (w : World) : World :=
  mkWorld (w_mounts w) (w_parts w) (w_grub_mounts w) (w_paths w)
          (<[f := c]> (w_files w)) (w_log w).

Definition log_event (e : event) (w : World) : World :=
  mkWorld (w_mounts w) (w_parts w) (w_grub_mounts w) (w_paths w)
          (w_files w) (w_log w ++ [e]).

(* ------------------------------------------------------------------ *)
(** ** The state and exception monad *)

Definition M (A : Type) : Type := World -> (exn + A) * World.

#[global] Instance M_ret : MRet M := fun A x w => (inr x, w).
#[global] Instance M_bind : MBind M := fun A B f m w =>
  match m w with
  | (inr a, w') => f a w'
  | (inl e, w') => (inl e, w')
  end.

Definition raise {A} (e : exn) : M A := fun w => (inl e, w).
Definition gets {A} (f : World -> A) : M A := fun w => (inr (f w), w).
Definition modify (f : World -> World) : M unit := fun w => (inr tt, f w).

(** [assert b] *)
Definition assert_ (b : bool) : M unit :=
  if b then mret tt else raise AssertionError.

(** [if not b: m] *)
Definition unless (b : bool) (m : M unit) : M unit := if b then mret tt else m.

(** [d[k]] for a Python dict [d] *)
Definition dict_get (d : gmap string string) (k : string) : M string :=
  match d !! k with Some v => mret v | None => raise (KeyError k) end.

(** Pure computations that may raise. *)
Definition lift {A} (r : exn + A) : M A := fun w => (r, w).

(* ------------------------------------------------------------------ *)
(** ** Python string and path helpers *)

(** Characters written with their decimal code. *)
Definition nl : string := String "010"%char EmptyString.   (* newline *)
Definition dq : string := String "034"%char EmptyString.   (* double quote *)
Definition slash : ascii := "/"%char.

(** [s.startswith(p)] *)
Definition startswith (s p : string) : bool := String.prefix p s.

Fixpoint last_char (s : string) : option ascii :=
  match s with
  | EmptyString => None
  | String c EmptyString => Some c
  | String _ s' => last_char s'
  end.

(** [s.split(c)] for a one-character separator: splitting a//b at the
    slash gives a, the empty string and b; the empty string gives a list
    holding the empty string. *)
Fixpoint split_go (c : ascii) (s cur : string) : list string :=
  match s with
  | EmptyString => [cur]
  | String x s' =>
      if Ascii.eqb x c then cur :: split_go c s' EmptyString
      else split_go c s' (cur +:+ String x EmptyString)
  end.

Definition split (c : ascii) (s : string) : list string := split_go c s EmptyString.

(** [posixpath.join(a, b)] *)
Definition path_join (a b : string) : string :=
  if startswith b "/" then b
  else if String.eqb a EmptyString then a +:+ b
  else if bool_decide (last_char a = Some slash) then a +:+ b
  else a +:+ "/" +:+ b.

(** The loop body of [posixpath.normpath]:
<<
        if comp in (empty, dot):
            continue
        if (comp != dotdot or (not initial_slashes and not new_comps) or
             (new_comps and new_comps[-1] == dotdot)):
            new_comps.append(comp)
        elif new_comps:
            new_comps.pop()
>> *)
Definition normpath_step (initial_slashes : nat) (new_comps : list string)
    (comp : string) : list string :=
  if String.eqb comp EmptyString || String.eqb comp "." then new_comps
  else if negb (String.eqb comp "..")
          || (Nat.eqb initial_slashes 0 && bool_decide (new_comps = []))
          || (negb (bool_decide (new_comps = []))
              && String.eqb (List.last new_comps EmptyString) "..")
  then new_comps ++ [comp]
  else if negb (bool_decide (new_comps = [])) then List.removelast new_comps
  else new_comps.

Fixpoint repeat_string (n : nat) (s : string) : string :=
  match n with O => EmptyString | S n' => s +:+ repeat_string n' s end.

(** [posixpath.normpath(path)] *)
Definition normpath (path : string) : string :=
  if String.eqb path EmptyString then "."
  else
    let initial_slashes :=
      if startswith path "/" then
        if startswith path "//" && negb (startswith path "///") then 2 else 1
      else 0 in
    let comps := split slash path in
    let new_comps := fold_left (normpath_step initial_slashes) comps [] in
    let path := repeat_string initial_slashes "/" +:+ String.concat "/" new_comps in
    if String.eqb path EmptyString then "." else path.

(** [GrubStepRunner.chroot_path] (lines 185-186):
    [os.path.normpath(os.path.join(chroot, '.' + path))] *)
Definition chroot_path (chroot path : string) : string :=
  normpath (path_join chroot ("." +:+ path)).

(* ------------------------------------------------------------------ *)
(** ** [str.splitlines]

    Python splits at \n, \r, \r\n, \v, \f, \x1c, \x1d, \x1e and \x85 (and
    at U+2028, U+2029, which lie outside the 8-bit characters modelled
    here); the line breaks are dropped and a final line break does not
    start a new line.  [skip_lf] is set right after a \r, so that the \n
    of a \r\n pair is swallowed. *)
Definition is_line_boundary (c : ascii) : bool :=
  existsb (Nat.eqb (nat_of_ascii c)) [10; 11; 12; 13; 28; 29; 30; 133].

Fixpoint splitlines_go (s cur : string) (skip_lf : bool) : list string :=
  match s with
  | EmptyString => if String.eqb cur EmptyString then [] else [cur]
  | String c s' =>
      if skip_lf && Nat.eqb (nat_of_ascii c) 10 then splitlines_go s' cur false
      else if is_line_boundary c then
        cur :: splitlines_go s' EmptyString (Nat.eqb (nat_of_ascii c) 13)
      else splitlines_go s' (cur +:+ String c EmptyString) false
  end.

Definition splitlines (s : string) : list string := splitlines_go s EmptyString false.

(** The text written back by [set_grub_cmdline_config] (lines 197-210):
<<
        lines = text.splitlines()
        lines = [line for line in lines
                 if not line.startswith('GRUB_CMDLINE_LINUX_DEFAULT')]
        lines.append('GRUB_CMDLINE_LINUX_DEFAULT="{}"'.format(param_string))
        ... f.write('\n'.join(lines) + '\n')
>> *)
Definition cmdline_line (param_string : string) : string :=
  "GRUB_CMDLINE_LINUX_DEFAULT=" +:+ dq +:+ param_string +:+ dq.

Definition grub_default_rewrite (kernel_params : list string) (text : string) : string :=
  let param_string := String.concat " " kernel_params in
  let lines := List.filter
                 (fun line => negb (startswith line "GRUB_CMDLINE_LINUX_DEFAULT"))
                 (splitlines text) in
  let lines := lines ++ [cmdline_line param_string] in
  String.concat nl lines +:+ nl.

(* ------------------------------------------------------------------ *)
(** ** [get_image_loop_device] (lines 155-163)

<<
        assert partition_device.startswith('/dev/mapper/loop')
        m = re.match('^/dev/mapper/(?P<loop>loop\d+)p\d+$', partition_device)
        assert m is not None
        loop = m.group('loop')
        return '/dev/{}'.format(loop)
>>
    The pattern is matched by hand.  Both [\d+] are greedy and followed by
    a non-digit, so no backtracking changes the outcome.  Python's [$]
    (without MULTILINE) matches at the end of the string and also just
    before a newline that ends the string.  Among 8-bit characters, [\d]
    matches exactly 0-9. *)
Definition is_digit (c : ascii) : bool :=
  Nat.leb 48 (nat_of_ascii c) && Nat.leb (nat_of_ascii c) 57.

(** All characters of [s] are decimal digits. *)
Fixpoint digits_only (s : string) : bool :=
  match s with
  | EmptyString => true
  | String c s' => is_digit c && digits_only s'
  end.

Fixpoint span_digits (s : string) : string * string :=
  match s with
  | String c s' =>
      if is_digit c then let (d, r) := span_digits s' in (String c d, r)
      else (EmptyString, s)
  | EmptyString => (EmptyString, EmptyString)
  end.

Fixpoint strip_prefix (p s : string) : option string :=
  match p, s with
  | EmptyString, _ => Some s
  | String a p', String b s' => if Ascii.eqb a b then strip_prefix p' s' else None
  | String _ _, EmptyString => None
  end.

(** [re.match(...)] followed by [m.group('loop')]; [None] when there is
    no match. *)
Definition loop_re_match (s : string) : option string :=
  match strip_prefix "/dev/mapper/loop" s with
  | None => None
  | Some r =>
      let (d1, r1) := span_digits r in
      if String.eqb d1 EmptyString then None else
      match r1 with
      | String p r2 =>
          if Ascii.eqb p "p"%char then
            let (d2, r3) := span_digits r2 in
            if String.eqb d2 EmptyString then None
            else if String.eqb r3 EmptyString || String.eqb r3 nl then Some ("loop" +:+ d1)
            else None
          else None
      | EmptyString => None
      end
  end.

Definition get_image_loop_device (partition_device : string) : exn + string :=
  if negb (startswith partition_device "/dev/mapper/loop") then inl AssertionError
  else match loop_re_match partition_device with
       | None => inl AssertionError
       | Some loop => inr ("/dev/" +:+ loop)
       end.

Section Runner.

(** Exit status of each external command: [true] for exit code 0. *)
Variable cmd_ok : list string -> bool.

(** [cliapp.runcmd(argv)] *)
Definition runcmd (argv : list string) : M unit := fun w =>
  let w' := log_event (ERun argv) w in
  if cmd_ok argv then (inr tt, w') else (inl (CommandFailed argv), w').

(* ------------------------------------------------------------------ *)
(** ** [unmount] (lines 148-153)

<<
    def unmount(self, state):
        mounts = getattr(state, 'grub_mounts', [])
        mounts.reverse()
        while mounts:
            mount_point = mounts.pop()
            cliapp.runcmd(['umount', mount_point])
>>
    [mounts] is the very list stored in [state.grub_mounts] (when the
    attribute exists), so [reverse] and [pop] mutate the state.  When the
    attribute is absent, [mounts] is a fresh empty list and the loop does
    not run.  The [while] loop pops one element per iteration, so it runs
    at most [length mounts] times; that is the fuel. *)
Fixpoint unmount_loop (fuel : nat) : M unit :=
  match fuel with
  | O => mret tt
  | S fuel' => fun w =>
      match w_grub_mounts w with
      | Some ((_ :: _) as mounts) =>
          let mount_point := List.last mounts EmptyString in
          (_ ← modify (set_grub_mounts (Some (List.removelast mounts)));
           _ ← runcmd ["umount"; mount_point];
           unmount_loop fuel') w
      | _ => (inr tt, w)
      end
  end.

Definition unmount : M unit := fun w =>
  match w_grub_mounts w with
  | None => (inr tt, w)
  | Some mounts =>
      (_ ← modify (set_grub_mounts (Some (rev mounts)));
       unmount_loop (length mounts)) w
  end.

(** [teardown(step, settings, state)] *)
Definition teardown : M unit := unmount.

(* ------------------------------------------------------------------ *)
(** ** Mounting (lines 165-183) *)

(** [s] is made of slashes only (the empty string included). *)
Fixpoint only_slashes (s : string) : bool :=
  match s with
  | EmptyString => true
  | String c s' => Ascii.eqb c slash && only_slashes s'
  end.

(** The ancestors of a path: its prefixes that end just before a slash,
    leaving out the empty one and the root.  [os.makedirs] walks up
    [os.path.split] heads until it meets an existing directory, then
    creates the missing ones top down; afterwards the path and all its
    ancestors exist.  The paths given to [makedirs] come from
    [chroot_path], which [normpath] leaves without trailing slashes and
    without doubled slashes after its start, so these prefixes are the
    heads [os.path.split] computes. *)
Fixpoint ancestors_go (s acc : string) : list string :=
  match s with
  | EmptyString => []
  | String c s' =>
      (if Ascii.eqb c slash && negb (only_slashes acc) then [acc] else [])
      ++ ancestors_go s' (acc +:+ String c EmptyString)
  end.

Definition makedirs_paths (path : string) : list string :=
  path :: ancestors_go path EmptyString.

(** [os.makedirs(path)].  The model lets it succeed: it does not cover
    the OSError that a read-only or full file system, or a file in the
    way, makes it raise. *)
Definition makedirs (path : string) : M unit :=
  modify (fun w => log_event (EMakedirs path) (add_paths (makedirs_paths path) w)).

(** [os.path.exists(path)] *)
Definition path_exists (path : string) : M bool :=
  gets (fun w => existsb (String.eqb path) (w_paths w)).

(**
<<
    def mount(self, chroot, path, mount_point, state, mount_opts=None):
        chroot_path = self.chroot_path(chroot, mount_point)
        if not os.path.exists(chroot_path):
            os.makedirs(chroot_path)
        if mount_opts is None:
            mount_opts = []
        cliapp.runcmd(['mount'] + mount_opts + [path, chroot_path])
        binds = getattr(state, 'grub_mounts', None)
        if binds is None:
            binds = []
        binds.append(chroot_path)
        state.grub_mounts = binds
>> *)
Definition mount (chroot path mount_point : string)
    (mount_opts : option (list string)) : M unit :=
  let cp := chroot_path chroot mount_point in
  is_there ← path_exists cp;
  _ ← unless is_there (makedirs cp);
  let mount_opts := match mount_opts with None => [] | Some o => o end in
  _ ← runcmd (["mount"] ++ mount_opts ++ [path; cp]);
  binds ← gets w_grub_mounts;
  let binds := match binds with None => [] | Some b => b end in
  modify (set_grub_mounts (Some (binds ++ [cp]))).

Fixpoint bind_mount_many (chroot : string) (paths : list string) : M unit :=
  match paths with
  | [] => mret tt
  | path :: paths' =>
      _ ← mount chroot path path (Some ["--bind"]);
      bind_mount_many chroot paths'
  end.

(** [self.chroot(chroot, argv)] (lines 193-194) *)
Definition chroot_cmd (chroot : string) (argv : list string) : M unit :=
  runcmd (["chroot"; chroot] ++ argv).

Definition install_package (chroot package : string) : M unit :=
  chroot_cmd chroot ["apt-get"; "-y"; "--no-show-progress"; "install"; package].

(** [open(filename).read()] *)
Definition read_file (filename : string) : M string := fun w =>
  match w_files w !! filename with
  | Some text => (inr text, w)
  | None => (inl (IOError filename), w)
  end.

(** [open(filename, 'w').write(text)].  The model lets the write succeed:
    it does not cover the OSError (IOError) that opening or writing can
    raise.  Statements below about the file written take the normal
    return of the write as a hypothesis instead of concluding it. *)
Definition write_file (filename text : string) : M unit :=
  modify (fun w => log_event (EWriteFile filename) (set_file filename text w)).

Definition set_grub_cmdline_config (chroot : string) (kernel_params : list string)
    : M unit :=
  let filename := chroot_path chroot "/etc/default/grub" in
  text ← read_file filename;
  write_file filename (grub_default_rewrite kernel_params text).

(** The kernel parameters that [run] passes (lines 121-126). *)
Definition kernel_params : list string :=
  ["biosdevname=0"; "net.ifnames=0"; "consoleblank=0"; "systemd.show_status=true"].

(* ------------------------------------------------------------------ *)
(** ** [run] (lines 96-143) *)
Definition run (step : gmap string string) : M unit :=
  flavor ← dict_get step "grub";
  _ ← assert_ (String.eqb flavor "uefi");
  let grub_package := "grub-efi-amd64" in
  let grub_target := "x86_64-efi" in
  device ← dict_get step "device";
  rootfs ← dict_get step "root-fs";
  mounts ← gets w_mounts;
  chroot ← dict_get mounts rootfs;
  root_part ← dict_get step "root-part";
  parts ← gets w_parts;
  root_dev ← dict_get parts root_part;
  efi_part ← dict_get step "efi-part";
  parts ← gets w_parts;
  efi_dev ← dict_get parts efi_part;
  image_dev ← lift (get_image_loop_device root_dev);
  _ ← bind_mount_many chroot ["/dev"; "/proc"; "/sys"];
  _ ← mount chroot efi_dev "/boot/efi" None;
  _ ← install_package chroot grub_package;
  _ ← set_grub_cmdline_config chroot kernel_params;
  _ ← chroot_cmd chroot ["grub-mkconfig"; "-o"; "/boot/grub/grub.cfg"];
  _ ← chroot_cmd chroot
        ["grub-install"; "--target=" +:+ grub_target; "--no-nvram";
         "--force-extra-removable"; "--no-floppy"; "--modules=part_msdos part_gpt";
         "--grub-mkdevicemap=/boot/grub/device.map"; image_dev];
  unmount.

(** [get_required_keys] (lines 93-94) *)
Definition get_required_keys : list string := ["grub"; "root-fs"].

End Runner.

(* ------------------------------------------------------------------ *)
(** ** The orchestrator's key check *)

(** Modelled from the spec: the step runner's required keys are
    "validated before execution" by the orchestrator (vmdb's core, which
    is not part of the plugin source): a step that lacks one of the keys
    of [get_required_keys] is rejected before [run] is called. *)
Definition missing_keys (required : list string) (step : gmap string string)
    : list string :=
  List.filter (fun k => negb (bool_decide (is_Some (step !! k)))) required.

Definition run_step (cmd_ok : list string -> bool) (step : gmap string string)
    : M unit :=
  match missing_keys get_required_keys step with
  | [] => run cmd_ok step
  | ks => raise (MissingKeys ks)
  end.

(* ------------------------------------------------------------------ *)
(** ** Vocabulary for the statements *)

Definition is_umount (e : event) : bool :=
  match e with
  | ERun (c :: _) => String.eqb c "umount"
  | _ => false
  end.

Definition umount_event (p : string) : event := ERun ["umount"; p].

(** The list that [mount] appends to: [getattr(state, 'grub_mounts', None)]
    or a fresh list. *)
Definition gm_base (g : option (list string)) : list string :=
  match g with None => [] | Some b => b end.

(** [state.grub_mounts] after the paths [ps] were appended, starting from
    [g]: the attribute is only created by the first append. *)
Definition recorded (g : option (list string)) (ps : list string)
    : option (list string) :=
  match ps with [] => g | _ => Some (gm_base g ++ ps) end.

(** The mount points of [run], in the order it mounts them. *)
Definition mount_targets (chroot : string) : list string :=
  map (chroot_path chroot) ["/dev"; "/proc"; "/sys"; "/boot/efi"].

(** An exception raised by a command other than [umount]. *)
Definition not_umount_failure (e : exn) : Prop :=
  forall argv, e <> CommandFailed ("umount" :: argv).

(* ------------------------------------------------------------------ *)
(** ** Concrete inputs *)

(** The scenario of the spec: root filesystem [root] mounted at
    /tmp/root, partitions [p1] and [p2] on loop device 3. *)
Definition ex_world : World :=
  mkWorld (<["root" := "/tmp/root"]> ∅)
          (<["p1" := "/dev/mapper/loop3p1"]> (<["p2" := "/dev/mapper/loop3p2"]> ∅))
          None []
          (<["/tmp/root/etc/default/grub" := "GRUB_TIMEOUT=5"]> ∅)
          [].

Definition ex_step : gmap string string :=
  <["grub" := "uefi"]> (<["device" := "/img.raw"]> (<["root-fs" := "root"]>
    (<["root-part" := "p1"]> (<["efi-part" := "p2"]> ∅)))).

(** Every command succeeds. *)
Definition all_ok : list string -> bool := fun _ => true.

(** Every command succeeds except grub-install, which exits with 1. *)
Definition grub_install_fails : list string -> bool :=
  fun argv => negb (String.eqb (nth 2 argv EmptyString) "grub-install").

Definition ex_install_argv : list string :=
  ["chroot"; "/tmp/root"; "grub-install"; "--target=x86_64-efi"; "--no-nvram";
   "--force-extra-removable"; "--no-floppy"; "--modules=part_msdos part_gpt";
   "--grub-mkdevicemap=/boot/grub/device.map"; "/dev/loop3"].








(** The scenario step without its [device] key. *)
Definition ex_step_nodevice : gmap string string := delete "device" ex_step.

(** The scenario world with /dev and /proc of the chroot recorded. *)
Definition ex_mounted : World :=
  set_grub_mounts (Some ["/tmp/root/dev"; "/tmp/root/proc"]) ex_world.

(** Every line-boundary character of [s] (in the sense of
    [str.splitlines]) is a newline. *)
Fixpoint lf_only (s : string) : bool :=
  match s with
  | EmptyString => true
  | String c s' =>
      (negb (is_line_boundary c) || Nat.eqb (nat_of_ascii c) 10) && lf_only s'
  end.

(** The argument vectors of the external commands in a log, in order. *)
Fixpoint commands (es : list event) : list (list string) :=
  match es with
  | [] => []
  | ERun argv :: es' => argv :: commands es'
  | _ :: es' => commands es'
  end.

(** [s] holds no slash. *)
Fixpoint slash_free (s : string) : bool :=
  match s with
  | EmptyString => true
  | String c s' => negb (Ascii.eqb c slash) && slash_free s'
  end.

(** A path component that [normpath] keeps as it is: not empty, not . or
    .. and without a slash. *)
Definition plain_component (c : string) : bool :=
  negb (String.eqb c EmptyString) && negb (String.eqb c ".")
  && negb (String.eqb c "..") && slash_free c.

(** The absolute path with components [cs]: a slash, then [cs] joined by
    slashes. *)
Definition abs_path (cs : list string) : string := "/" +:+ String.concat "/" cs.

(* ================================================================== *)
(** * Proofs *)

(** ** Monad lemmas *)

Lemma bind_cases {A B} (m : M A) (f : A -> M B) w r w' :
  (m ≫= f) w = (r, w') ->
  (exists e, m w = (inl e, w') /\ r = inl e) \/
  (exists a w1, m w = (inr a, w1) /\ f a w1 = (r, w')).
Proof.
  unfold mbind, M_bind. destruct (m w) as [[e|a] w1]; intros H.
  - inversion H; subst. left. eauto.
  - right. eauto.
Qed.

Lemma bind_inr {A B} (m : M A) (f : A -> M B) w a w1 :
  m w = (inr a, w1) -> (m ≫= f) w = f a w1.
Proof. unfold mbind, M_bind. intros ->. reflexivity. Qed.

Lemma bind_inl {A B} (m : M A) (f : A -> M B) w e w1 :
  m w = (inl e, w1) -> (m ≫= f) w = (inl e, w1).
Proof. unfold mbind, M_bind. intros ->. reflexivity. Qed.

Lemma length_removelast (l : list string) :
  length (List.removelast l) = pred (length l).
Proof. rewrite removelast_firstn_len, length_firstn. lia. Qed.

Lemma world_eta w :
  mkWorld (w_mounts w) (w_parts w) (w_grub_mounts w) (w_paths w) (w_files w) (w_log w) = w.
Proof. destruct w; reflexivity. Qed.

(** ** [unmount] *)

Section UnmountProofs.
Variable cmd_ok : list string -> bool.

(** With the stored list equal to [rev l] and every [umount] succeeding,
    the loop pops and unmounts the elements of [l] from its head on. *)
Lemma unmount_loop_all (l : list string) :
  forall fuel w,
  length l <= fuel ->
  w_grub_mounts w = Some (rev l) ->
  (forall p, In p l -> cmd_ok ["umount"; p] = true) ->
  unmount_loop cmd_ok fuel w =
    (inr tt, mkWorld (w_mounts w) (w_parts w) (Some []) (w_paths w) (w_files w)
                     (w_log w ++ map umount_event l)).
Proof.
  induction l as [|a l IH]; intros fuel w Hlen Hg Hok.
  - destruct w as [mo pa g pt fi lg]; simpl in Hg |- *; subst g.
    rewrite app_nil_r. destruct fuel; reflexivity.
  - destruct fuel as [|fuel]; [simpl in Hlen; lia|].
    simpl in Hlen. cbn [unmount_loop].
    rewrite Hg. simpl rev.
    destruct (rev l ++ [a]) as [|x xs] eqn:Hrev;
      [destruct (rev l); discriminate|].
    rewrite <- Hrev, last_last, removelast_last.
    unfold mbind, M_bind, modify at 1.
    unfold runcmd. simpl. rewrite (Hok a (or_introl eq_refl)).
    rewrite IH by (simpl; auto with arith || lia || (intros; apply Hok; right; auto)).
    simpl. rewrite <- app_assoc. reflexivity.
Qed.

Lemma unmount_all (l : list string) w :
  w_grub_mounts w = Some l ->
  (forall p, In p l -> cmd_ok ["umount"; p] = true) ->
  unmount cmd_ok w =
    (inr tt, mkWorld (w_mounts w) (w_parts w) (Some []) (w_paths w) (w_files w)
                     (w_log w ++ map umount_event l)).
Proof.
  intros Hg Hok. unfold unmount. rewrite Hg.
  unfold mbind, M_bind, modify.
  rewrite (unmount_loop_all l); simpl; auto.
Qed.

(** Whenever the loop returns normally, it has emptied the stored list. *)
Lemma unmount_loop_drained fuel :
  forall w l w',
  w_grub_mounts w = Some l -> length l <= fuel ->
  unmount_loop cmd_ok fuel w = (inr tt, w') ->
  w_grub_mounts w' = Some [].
Proof.
  induction fuel as [|fuel IH]; intros w l w' Hg Hlen H.
  - destruct l; [|simpl in Hlen; lia]. simpl in H. inversion H; subst. exact Hg.
  - cbn [unmount_loop] in H. rewrite Hg in H.
    destruct l as [|x xs].
    + inversion H; subst. exact Hg.
    + apply bind_cases in H as [(e & He & Habs)|(u & w1 & He & H)]; [discriminate|].
      unfold modify in He. inversion He; subst.
      apply bind_cases in H as [(e & He2 & Habs)|(u' & w2 & He2 & H)]; [discriminate|].
      unfold runcmd in He2. destruct (cmd_ok _); inversion He2; subst.
      refine (IH _ (List.removelast (x :: xs)) _ _ _ H); [reflexivity|].
      rewrite length_removelast. simpl in Hlen |- *. lia.
Qed.

Lemma unmount_drained w w' :
  unmount cmd_ok w = (inr tt, w') ->
  w_grub_mounts w' = None \/ w_grub_mounts w' = Some [].
Proof.
  unfold unmount. destruct (w_grub_mounts w) as [l|] eqn:Hg; intros H.
  - right. unfold mbind, M_bind, modify in H.
    eapply unmount_loop_drained; [|idtac|exact H]; [reflexivity|].
    rewrite length_rev. lia.
  - left. inversion H; subst. exact Hg.
Qed.

End UnmountProofs.

(** ** [mount] and the other steps of [run] *)

Section StepProofs.
Variable cmd_ok : list string -> bool.

(** The whole effect of one call of [mount], as an equation. *)
Lemma mount_effect chroot path mount_point mount_opts w :
  let cp := chroot_path chroot mount_point in
  let argv := ["mount"] ++ gm_base mount_opts ++ [path; cp] in
  let there := existsb (String.eqb cp) (w_paths w) in
  mount cmd_ok chroot path mount_point mount_opts w =
    (if cmd_ok argv then inr tt else inl (CommandFailed argv),
     mkWorld (w_mounts w) (w_parts w)
       (if cmd_ok argv then Some (gm_base (w_grub_mounts w) ++ [cp])
        else w_grub_mounts w)
       (if there then w_paths w else makedirs_paths cp ++ w_paths w)
       (w_files w)
       (w_log w ++ (if there then [] else [EMakedirs cp]) ++ [ERun argv])).
Proof.
  intros cp argv there. subst cp argv there.
  unfold mount, path_exists, unless, makedirs, runcmd.
  unfold mbind, M_bind, mret, M_ret, gets, modify.
  destruct mount_opts; simpl;
    destruct (existsb _ _); destruct (cmd_ok _);
    unfold set_grub_mounts, log_event, add_paths; simpl;
    rewrite <- ?app_assoc; reflexivity.
Qed.

Lemma get_image_loop_device_inl s e :
  get_image_loop_device s = inl e -> e = AssertionError.
Proof.
  unfold get_image_loop_device.
  destruct (negb _); [congruence|].
  destruct (loop_re_match s); congruence.
Qed.

(** [unmount] only raises through a failing [umount]. *)
Lemma unmount_loop_raises fuel :
  forall w e w', unmount_loop cmd_ok fuel w = (inl e, w') ->
  exists p, e = CommandFailed ["umount"; p].
Proof.
  induction fuel as [|fuel IH]; intros w e w' H; cbn [unmount_loop] in H.
  - discriminate.
  - destruct (w_grub_mounts w) as [[|x xs]|]; try discriminate.
    apply bind_cases in H as [(e' & He & Hr)|(u & w1 & He & H)];
      [unfold modify in He; discriminate|].
    apply bind_cases in H as [(e' & He2 & Hr)|(u' & w2 & He2 & H)].
    + unfold runcmd in He2. destruct (cmd_ok _); inversion He2; subst.
      inversion Hr; subst. eauto.
    + eauto.
Qed.

Lemma unmount_raises w e w' :
  unmount cmd_ok w = (inl e, w') -> exists p, e = CommandFailed ["umount"; p].
Proof.
  unfold unmount. destruct (w_grub_mounts w); intros H; [|discriminate].
  apply bind_cases in H as [(e' & He & Hr)|(u & w1 & He & H)];
    [unfold modify in He; discriminate|].
  eauto using unmount_loop_raises.
Qed.

Lemma mount_step c p mp o w r w1 :
  mount cmd_ok c p mp o w = (r, w1) ->
  List.filter is_umount (w_log w1) = List.filter is_umount (w_log w) /\
  ((r = inr tt /\ w_grub_mounts w1 = Some (gm_base (w_grub_mounts w) ++ [chroot_path c mp])) \/
   (exists argv, r = inl (CommandFailed ("mount" :: argv)) /\ w_grub_mounts w1 = w_grub_mounts w)).
Proof.
  rewrite mount_effect. intros H. inversion H; subst; clear H. simpl.
  rewrite !List.filter_app. destruct (existsb _ _); simpl; rewrite ?app_nil_r;
    (split; [reflexivity|]); destruct (cmd_ok _); eauto.
Qed.

Lemma runcmd_step argv w r w1 :
  runcmd cmd_ok argv w = (r, w1) -> is_umount (ERun argv) = false ->
  List.filter is_umount (w_log w1) = List.filter is_umount (w_log w) /\
  w_grub_mounts w1 = w_grub_mounts w /\
  (r = inr tt \/ r = inl (CommandFailed argv)).
Proof.
  unfold runcmd. intros H Hu. destruct (cmd_ok argv); inversion H; subst; clear H;
    unfold log_event; cbn [w_log w_grub_mounts]; rewrite List.filter_app;
    cbn [List.filter]; rewrite Hu, app_nil_r; auto.
Qed.

Lemma set_grub_step c ps w r w1 :
  set_grub_cmdline_config c ps w = (r, w1) ->
  List.filter is_umount (w_log w1) = List.filter is_umount (w_log w) /\
  w_grub_mounts w1 = w_grub_mounts w /\
  (r = inr tt \/ exists f, r = inl (IOError f)).
Proof.
  unfold set_grub_cmdline_config, read_file, write_file, modify, mbind, M_bind.
  destruct (w_files w !! _); intros H; inversion H; subst; clear H; simpl;
    rewrite ?List.filter_app; simpl; rewrite ?app_nil_r; eauto.
Qed.

Lemma recorded_cons g x ps :
  recorded (Some (gm_base g ++ [x])) ps = recorded g (x :: ps).
Proof. destruct ps; simpl; [reflexivity|]. rewrite <- app_assoc. reflexivity. Qed.

Lemma bind_mount_many_step c ps : forall w r w1,
  bind_mount_many cmd_ok c ps w = (r, w1) ->
  List.filter is_umount (w_log w1) = List.filter is_umount (w_log w) /\
  ((r = inr tt /\ w_grub_mounts w1 = recorded (w_grub_mounts w) (map (chroot_path c) ps)) \/
   (exists j argv, j < length ps /\ r = inl (CommandFailed ("mount" :: argv)) /\
      w_grub_mounts w1 = recorded (w_grub_mounts w) (firstn j (map (chroot_path c) ps)))).
Proof.
  induction ps as [|p ps IH]; intros w r w1 H; cbn [bind_mount_many] in H.
  - unfold mret, M_ret in H. inversion H; subst. split; [reflexivity|]. left. split; reflexivity.
  - apply bind_cases in H as [(e0 & Hm & ->)|(u & w2 & Hm & H)].
    + apply mount_step in Hm as [Hf [(Habs & _)|(argv & Hr & Hg)]]; [discriminate|].
      inversion Hr; subst. split; [exact Hf|]. right. exists 0, argv. simpl.
      split; [lia|]. auto.
    + apply mount_step in Hm as [Hf [(_ & Hg)|(argv & Hr & _)]]; [|discriminate].
      apply IH in H as [Hf' Hres]. split; [congruence|].
      rewrite Hg in Hres.
      destruct Hres as [(-> & Hg')|(j & argv & Hj & Hr & Hg')];
        rewrite recorded_cons in Hg'.
      * left. auto.
      * right. exists (S j), argv. split; [simpl; lia|]. auto.
Qed.

Ltac solve_A := split; [reflexivity | left; split; [reflexivity | eauto]].
Ltac dict_fin :=
  match goal with
  | Hm : dict_get ?d ?k _ = (inl _, _), He : inl _ = inl _ |- _ =>
      unfold dict_get in Hm; destruct (d !! k); inversion Hm; subst; inversion He; subst; solve_A
  | Hm : dict_get ?d ?k _ = (inr _, _) |- _ =>
      unfold dict_get in Hm; destruct (d !! k) eqn:?; inversion Hm; subst; clear Hm
  | Hm : gets _ _ = (inl _, _) |- _ => discriminate
  | Hm : gets _ _ = (inr _, _) |- _ => unfold gets in Hm; inversion Hm; subst; clear Hm
  | Hm : assert_ ?b _ = (inl _, _), He : inl _ = inl _ |- _ =>
      unfold assert_, mret, M_ret, raise in Hm; destruct b;
      inversion Hm; subst; inversion He; subst; solve_A
  | Hm : assert_ ?b _ = (inr _, _) |- _ =>
      unfold assert_, mret, M_ret, raise in Hm; destruct b eqn:?;
      inversion Hm; subst; clear Hm
  | Hm : lift ?r _ = (inl _, _), He : inl _ = inl _ |- _ =>
      unfold lift in Hm; inversion Hm as [[Himg Hw]]; subst; inversion He; subst;
      apply get_image_loop_device_inl in Himg; subst; solve_A
  | Hm : lift ?r _ = (inr _, _) |- _ =>
      unfold lift in Hm; inversion Hm as [[Himg Hw]]; subst; clear Hm
  end.
Ltac bstep H := apply bind_cases in H as [(?e0 & ?Hm & ?He)|(?x & ?w1 & ?Hm & H)]; dict_fin.

(** The master lemma on [run] raising: either nothing happened (a key
    lookup or an assertion failed), or the [j]-th mount failed with the
    [j] earlier mount points recorded, or a later step failed with all four
    recorded; in no case did [run] issue a [umount]. *)
Lemma run_raises step w e w' :
  run cmd_ok step w = (inl e, w') -> not_umount_failure e ->
  List.filter is_umount (w_log w') = List.filter is_umount (w_log w) /\
  ( (w' = w /\ ((exists k, e = KeyError k) \/ e = AssertionError))
  \/ (exists rootfs chroot j, step !! "root-fs" = Some rootfs /\ w_mounts w !! rootfs = Some chroot /\ j < 4 /\
        w_grub_mounts w' = recorded (w_grub_mounts w) (firstn j (mount_targets chroot)) /\
        exists argv, e = CommandFailed ("mount" :: argv))
  \/ (exists rootfs chroot, step !! "root-fs" = Some rootfs /\ w_mounts w !! rootfs = Some chroot /\
        w_grub_mounts w' = Some (gm_base (w_grub_mounts w) ++ mount_targets chroot) /\
        ((exists argv, e = CommandFailed ("chroot" :: argv)) \/ (exists f, e = IOError f)))).
Proof.
  intros H Hnu. unfold run in H.
  do 13 bstep H.
  rename x1 into rootfs, x2 into chroot, x6 into efi_dev, x7 into image_dev.
  (* the bind mounts of /dev, /proc and /sys *)
  apply bind_cases in H as [(e0 & Hm & He)|(u & w2 & Hm & H)].
  { apply bind_mount_many_step in Hm as [Hf [(Habs & _)|(j & argv & Hj & Hr & Hg)]];
      [discriminate|].
    inversion Hr; subst; inversion He; subst. split; [exact Hf|].
    right; left. exists rootfs, chroot, j. simpl in Hj.
    repeat split; eauto; try lia. rewrite Hg. unfold mount_targets.
    destruct j as [|[|[|j]]]; simpl; try reflexivity; lia. }
  apply bind_mount_many_step in Hm as [Hf2 [(_ & Hg2)|(j & argv & _ & Habs & _)]];
    [|discriminate].
  (* the EFI partition *)
  apply bind_cases in H as [(e0 & Hm & He)|(u' & w3 & Hm & H)].
  { apply mount_step in Hm as [Hf [(Habs & _)|(argv & Hr & Hg)]]; [discriminate|].
    inversion Hr; subst; inversion He; subst. split; [congruence|].
    right; left. exists rootfs, chroot, 3.
    repeat split; eauto. rewrite Hg, Hg2. reflexivity. }
  apply mount_step in Hm as [Hf3 [(_ & Hg3)|(argv & Habs & _)]]; [|discriminate].
  assert (Hmounted : w_grub_mounts w3 = Some (gm_base (w_grub_mounts w1) ++ mount_targets chroot)).
  { rewrite Hg3, Hg2. simpl. rewrite <- app_assoc. reflexivity. }
  clear Hg2 Hg3.
  (* apt-get install *)
  unfold install_package, chroot_cmd in H.
  apply bind_cases in H as [(e0 & Hm & He)|(u2 & w4 & Hm & H)];
    (apply runcmd_step in Hm as [Hf4 [Hg4 Hr4]]; [|reflexivity]).
  { destruct Hr4 as [Habs|Hr]; [discriminate|]. inversion Hr; subst; inversion He; subst.
    split; [congruence|]. right; right. exists rootfs, chroot.
    repeat split; auto; [congruence|]. left; eauto. }
  (* /etc/default/grub *)
  apply bind_cases in H as [(e0 & Hm & He)|(u3 & w5 & Hm & H)];
    apply set_grub_step in Hm as [Hf5 [Hg5 Hr5]].
  { destruct Hr5 as [Habs|(f & Hr)]; [discriminate|]. inversion Hr; subst; inversion He; subst.
    split; [congruence|]. right; right. exists rootfs, chroot.
    repeat split; auto; [congruence|]. right; eauto. }
  (* grub-mkconfig *)
  apply bind_cases in H as [(e0 & Hm & He)|(u4 & w6 & Hm & H)];
    (apply runcmd_step in Hm as [Hf6 [Hg6 Hr6]]; [|reflexivity]).
  { destruct Hr6 as [Habs|Hr]; [discriminate|]. inversion Hr; subst; inversion He; subst.
    split; [congruence|]. right; right. exists rootfs, chroot.
    repeat split; auto; [congruence|]. left; eauto. }
  (* grub-install *)
  apply bind_cases in H as [(e0 & Hm & He)|(u5 & w7 & Hm & H)];
    (apply runcmd_step in Hm as [Hf7 [Hg7 Hr7]]; [|reflexivity]).
  { destruct Hr7 as [Habs|Hr]; [discriminate|]. inversion Hr; subst; inversion He; subst.
    split; [congruence|]. right; right. exists rootfs, chroot.
    repeat split; auto; [congruence|]. left; eauto. }
  (* the final unmount only raises for a failing umount *)
  apply unmount_raises in H as [p ->]. exfalso. exact (Hnu [p] eq_refl).
Qed.
End StepProofs.

(** ** [splitlines] and the rewrite of /etc/default/grub *)

(** A string with no line boundary in it. *)
Fixpoint breakfree (s : string) : bool :=
  match s with
  | EmptyString => true
  | String c s' => negb (is_line_boundary c) && breakfree s'
  end.

(** stdpp declares [String.append] [simpl never]; its two equations. *)
Lemma append_nil_l (t : string) : EmptyString +:+ t = t.
Proof. reflexivity. Qed.

Lemma append_cons (c : ascii) (s t : string) : String c s +:+ t = String c (s +:+ t).
Proof. reflexivity. Qed.

Lemma string_app_assoc (a b c : string) : (a +:+ b) +:+ c = a +:+ (b +:+ c).
Proof.
  induction a as [|x a IH]; [reflexivity|]. rewrite !append_cons, IH. reflexivity.
Qed.

Lemma string_app_nil_r (a : string) : a +:+ EmptyString = a.
Proof. induction a as [|x a IH]; [reflexivity|]. rewrite append_cons, IH. reflexivity. Qed.

Lemma breakfree_app (a b : string) :
  breakfree (a +:+ b) = breakfree a && breakfree b.
Proof.
  induction a as [|x a IH]; [reflexivity|]. rewrite append_cons. simpl.
  rewrite IH. destruct (is_line_boundary x), (breakfree a); reflexivity.
Qed.

(** A line without boundaries followed by a newline is read back as one
    line. *)
Lemma splitlines_go_line (l : string) : forall rest cur,
  breakfree l = true ->
  splitlines_go (l +:+ String "010"%char rest) cur false =
    (cur +:+ l) :: splitlines_go rest EmptyString false.
Proof.
  induction l as [|c l IH]; intros rest cur Hl.
  - rewrite append_nil_l, string_app_nil_r. reflexivity.
  - simpl in Hl. apply andb_prop in Hl as [Hc Hl].
    apply negb_true_iff in Hc.
    rewrite append_cons. cbn [splitlines_go andb]. rewrite Hc.
    rewrite IH by exact Hl. rewrite string_app_assoc, append_cons, append_nil_l.
    reflexivity.
Qed.

Lemma splitlines_concat (ls : list string) :
  ls <> [] -> Forall (fun l => breakfree l = true) ls ->
  splitlines (String.concat nl ls +:+ nl) = ls.
Proof.
  induction ls as [|x ls IH]; intros Hne Hall; [congruence|].
  inversion Hall as [|? ? Hx Hls]; subst.
  destruct ls as [|y ys].
  - unfold splitlines. cbn [String.concat]. unfold nl.
    rewrite splitlines_go_line by exact Hx. rewrite append_nil_l. reflexivity.
  - change (String.concat nl (x :: y :: ys)) with (x +:+ nl +:+ String.concat nl (y :: ys)).
    rewrite !string_app_assoc. unfold splitlines. unfold nl at 1.
    rewrite append_cons, append_nil_l.
    rewrite splitlines_go_line by exact Hx. rewrite append_nil_l.
    f_equal. apply IH; [discriminate|exact Hls].
Qed.

Lemma splitlines_go_breakfree (s : string) : forall cur skip_lf,
  breakfree cur = true ->
  Forall (fun l => breakfree l = true) (splitlines_go s cur skip_lf).
Proof.
  induction s as [|c s IH]; intros cur skip_lf Hcur; cbn [splitlines_go].
  - destruct (String.eqb cur EmptyString); auto.
  - destruct (skip_lf && Nat.eqb (nat_of_ascii c) 10); [auto|].
    destruct (is_line_boundary c) eqn:Hc.
    + constructor; [exact Hcur|]. apply IH. reflexivity.
    + apply IH. rewrite breakfree_app, Hcur. simpl. rewrite Hc. reflexivity.
Qed.

Lemma splitlines_breakfree (s : string) :
  Forall (fun l => breakfree l = true) (splitlines s).
Proof. apply splitlines_go_breakfree. reflexivity. Qed.



Lemma lf_only_app (a b : string) : lf_only (a +:+ b) = lf_only a && lf_only b.
Proof.
  induction a as [|c a IH]; [reflexivity|]. rewrite append_cons. simpl.
  rewrite IH. apply andb_assoc.
Qed.

Lemma breakfree_lf_only (s : string) : breakfree s = true -> lf_only s = true.
Proof.
  induction s as [|c s IH]; [reflexivity|]. simpl.
  intros H. apply andb_prop in H as [Hc Hs]. rewrite Hc, (IH Hs). reflexivity.
Qed.

Lemma lf_only_concat_nl (ls : list string) :
  Forall (fun l => breakfree l = true) ls -> lf_only (String.concat nl ls) = true.
Proof.
  induction ls as [|x ls IH]; intros H; [reflexivity|].
  inversion H as [|? ? Hx Hls]; subst.
  destruct ls as [|y ys].
  - apply breakfree_lf_only, Hx.
  - change (String.concat nl (x :: y :: ys)) with (x +:+ nl +:+ String.concat nl (y :: ys)).
    rewrite !lf_only_app, breakfree_lf_only by exact Hx. rewrite IH by exact Hls.
    reflexivity.
Qed.



Lemma set_grub_ok c ps w text :
  w_files w !! chroot_path c "/etc/default/grub" = Some text ->
  set_grub_cmdline_config c ps w =
    (inr tt, log_event (EWriteFile (chroot_path c "/etc/default/grub"))
               (set_file (chroot_path c "/etc/default/grub") (grub_default_rewrite ps text) w)).
Proof.
  intros Hf. unfold set_grub_cmdline_config, read_file, write_file, modify, mbind, M_bind.
  rewrite Hf. reflexivity.
Qed.

(** ** Loop device names *)

Lemma strip_prefix_app (p t : string) : strip_prefix p (p +:+ t) = Some t.
Proof.
  induction p as [|a p IH]; [reflexivity|].
  rewrite append_cons. simpl. rewrite Ascii.eqb_refl. exact IH.
Qed.

Lemma prefix_app (p t : string) : String.prefix p (p +:+ t) = true.
Proof.
  induction p as [|a p IH]; [rewrite append_nil_l; destruct t; reflexivity|].
  rewrite append_cons. simpl. destruct (ascii_dec a a) as [_|n]; [exact IH|].
  exfalso. exact (n eq_refl).
Qed.

Lemma span_digits_app (d r : string) :
  digits_only d = true ->
  match r with String c _ => is_digit c = false | EmptyString => True end ->
  span_digits (d +:+ r) = (d, r).
Proof.
  intros Hd Hr. induction d as [|c d IH].
  - destruct r as [|c r]; [reflexivity|]. simpl. rewrite Hr. reflexivity.
  - simpl in Hd. apply andb_prop in Hd as [Hc Hd].
    rewrite append_cons. simpl. rewrite Hc, IH by exact Hd. reflexivity.
Qed.

(** X1: every path /dev/mapper/loop<N>p<M>, with N and M non-empty
    strings of decimal digits, gives the loop device /dev/loop<N>. *)
Lemma get_image_loop_device_partition (n m : string) :
  n <> EmptyString -> m <> EmptyString ->
  digits_only n = true -> digits_only m = true ->
  get_image_loop_device ("/dev/mapper/loop" +:+ n +:+ "p" +:+ m) =
    inr ("/dev/loop" +:+ n).
Proof.
  intros Hn Hm Dn Dm. unfold get_image_loop_device, startswith.
  rewrite prefix_app. cbn [negb]. unfold loop_re_match.
  rewrite strip_prefix_app, span_digits_app by (auto; reflexivity).
  destruct (String.eqb n EmptyString) eqn:En;
    [apply String.eqb_eq in En; contradiction|].
  rewrite append_cons, append_nil_l. cbn [Ascii.eqb Bool.eqb].
  rewrite <- (string_app_nil_r m) at 1.
  rewrite span_digits_app by (auto; exact I).
  destruct (String.eqb m EmptyString) eqn:Em;
    [apply String.eqb_eq in Em; contradiction|].
  reflexivity.
Qed.

(** ** Lemmas on [run] before its first side effect *)

Lemma unmount_noop cmd_ok w :
  w_grub_mounts w = None \/ w_grub_mounts w = Some [] ->
  unmount cmd_ok w = (inr tt, w).
Proof.
  intros [Hg|Hg]; unfold unmount; rewrite Hg; [reflexivity|].
  destruct w as [mo pa g pt fi lg]; simpl in Hg |- *; subst g. reflexivity.
Qed.

Ltac run_lookup :=
  lazymatch goal with
  | |- context [(dict_get ?d ?key ≫= ?f) ?w] =>
      let E := fresh "E" in
      destruct (d !! key) as [?v|] eqn:E;
      [ rewrite (bind_inr (dict_get d key) f w _ w)
          by (unfold dict_get; rewrite E; reflexivity); cbv beta
      | rewrite (bind_inl (dict_get d key) f w (KeyError key) w)
          by (unfold dict_get; rewrite E; reflexivity) ]
  | |- context [(gets ?g ≫= ?f) ?w] =>
      rewrite (bind_inr (gets g) f w (g w) w) by reflexivity; cbv beta
  end.

Lemma run_grub_uefi cmd_ok step w (P : (exn + unit) * World -> Prop) :
  step !! "grub" = Some "uefi" ->
  P (( device ← dict_get step "device";
       rootfs ← dict_get step "root-fs";
       mounts ← gets w_mounts;
       chroot ← dict_get mounts rootfs;
       root_part ← dict_get step "root-part";
       parts ← gets w_parts;
       root_dev ← dict_get parts root_part;
       efi_part ← dict_get step "efi-part";
       parts ← gets w_parts;
       efi_dev ← dict_get parts efi_part;
       image_dev ← lift (get_image_loop_device root_dev);
       _ ← bind_mount_many cmd_ok chroot ["/dev"; "/proc"; "/sys"];
       _ ← mount cmd_ok chroot efi_dev "/boot/efi" None;
       _ ← install_package cmd_ok chroot "grub-efi-amd64";
       _ ← set_grub_cmdline_config chroot kernel_params;
       _ ← chroot_cmd cmd_ok chroot ["grub-mkconfig"; "-o"; "/boot/grub/grub.cfg"];
       _ ← chroot_cmd cmd_ok chroot
             ["grub-install"; "--target=" +:+ "x86_64-efi"; "--no-nvram";
              "--force-extra-removable"; "--no-floppy"; "--modules=part_msdos part_gpt";
              "--grub-mkdevicemap=/boot/grub/device.map"; image_dev];
       unmount cmd_ok) w) ->
  P (run cmd_ok step w).
Proof.
  intros Hg HP. unfold run.
  rewrite (bind_inr (dict_get step "grub") _ w "uefi" w)
    by (unfold dict_get; rewrite Hg; reflexivity).
  cbv beta.
  rewrite (bind_inr (assert_ (String.eqb "uefi" "uefi")) _ w tt w) by reflexivity.
  exact HP.
Qed.

(** [run] on a step whose grub value is not uefi stops at the assertion. *)
Lemma run_flavor_assert cmd_ok step w flavor :
  step !! "grub" = Some flavor -> flavor <> "uefi" ->
  run cmd_ok step w = (inl AssertionError, w).
Proof.
  intros Hg Hne. unfold run.
  rewrite (bind_inr (dict_get step "grub") _ w flavor w)
    by (unfold dict_get; rewrite Hg; reflexivity).
  cbv beta. apply String.eqb_neq in Hne.
  apply (bind_inl (assert_ (String.eqb flavor "uefi")) _ w AssertionError w).
  unfold assert_. rewrite Hne. reflexivity.
Qed.

(* ================================================================== *)
(** * The claims *)

(** C1: [unmount] pops from the end of the list after reversing it, so it
    unmounts the recorded paths in the order they were mounted, not in
    reverse. In the scenario step, with every command succeeding, [run]
    mounts /dev, /proc, /sys and /boot/efi of the chroot in this order and
    then unmounts them in the same order: /dev first, /boot/efi last. *)
Theorem run_unmounts_in_mount_order :
  fst (run all_ok ex_step ex_world) = inr tt /\
  List.filter is_umount (w_log (snd (run all_ok ex_step ex_world))) =
    map umount_event
      ["/tmp/root/dev"; "/tmp/root/proc"; "/tmp/root/sys"; "/tmp/root/boot/efi"].
Proof. vm_compute. split; reflexivity. Qed.

(** C2 (counterexample): in the scenario step, when grub-install fails,
    [run] raises the command failure with the four mount points still
    recorded in [grub_mounts] and without having run any umount. *)
Lemma grub_install_failure_leaves_mounts :
  fst (run grub_install_fails ex_step ex_world) = inl (CommandFailed ex_install_argv) /\
  List.filter is_umount (w_log (snd (run grub_install_fails ex_step ex_world))) = [] /\
  w_grub_mounts (snd (run grub_install_fails ex_step ex_world)) =
    Some (mount_targets "/tmp/root").
Proof. vm_compute. repeat split. Qed.

(** C2 (amended): when [run] fails with an error other than a failing
    umount, it has issued no umount command of its own; if it failed after
    all four mounts (apt-get, reading /etc/default/grub, grub-mkconfig or
    grub-install), the four mount points are still recorded in
    [grub_mounts]. The cleanup is left to [teardown]: when the umount
    commands succeed, it unmounts each recorded path exactly once and
    leaves the list empty. *)
Theorem run_failure_leaves_cleanup_to_teardown cmd_ok step w e :
  fst (run cmd_ok step w) = inl e -> not_umount_failure e ->
  (forall p, cmd_ok ["umount"; p] = true) ->
  let w' := snd (run cmd_ok step w) in
  List.filter is_umount (w_log w') = List.filter is_umount (w_log w) /\
  (((exists argv, e = CommandFailed ("chroot" :: argv)) \/ (exists f, e = IOError f)) ->
   exists rootfs chroot,
     step !! "root-fs" = Some rootfs /\ w_mounts w !! rootfs = Some chroot /\
     w_grub_mounts w' = Some (gm_base (w_grub_mounts w) ++ mount_targets chroot)) /\
  exists L w'',
    teardown cmd_ok w' = (inr tt, w'') /\ w_log w'' = w_log w' ++ L /\
    Permutation L (map umount_event (gm_base (w_grub_mounts w'))) /\
    gm_base (w_grub_mounts w'') = [].
Proof.
  intros Hr Hnu Hum w'. subst w'.
  destruct (run cmd_ok step w) as [r w'] eqn:Hrun. simpl in Hr |- *. subst r.
  apply run_raises in Hrun as [Hf Hst]; [|exact Hnu].
  split; [exact Hf|]. split.
  - intros He.
    destruct Hst as [(_ & [[k Hk]|Hk]) | [(rootfs & chroot & j & _ & _ & _ & _ & argv & Hk)
                    | (rootfs & chroot & H1 & H2 & H3 & _)]];
      [ destruct He as [[a Ha]|[f Ha]]; congruence
      | destruct He as [[a Ha]|[f Ha]]; congruence
      | destruct He as [[a Ha]|[f Ha]]; congruence
      | eauto ].
  - unfold teardown. destruct (w_grub_mounts w') as [l|] eqn:Hg.
    + eexists _, _. rewrite (unmount_all cmd_ok l w' Hg) by auto.
      split; [reflexivity|]. simpl. repeat split; reflexivity.
    + exists [], w'. rewrite unmount_noop by auto. rewrite app_nil_r, Hg.
      repeat split; constructor.
Qed.

Lemma run_failure_leaves_cleanup_to_teardown_witness :
  let w' := snd (run grub_install_fails ex_step ex_world) in
  List.filter is_umount (w_log w') = List.filter is_umount (w_log ex_world) /\
  (((exists argv, CommandFailed ex_install_argv = CommandFailed ("chroot" :: argv)) \/
    (exists f, CommandFailed ex_install_argv = IOError f)) ->
   exists rootfs chroot,
     ex_step !! "root-fs" = Some rootfs /\ w_mounts ex_world !! rootfs = Some chroot /\
     w_grub_mounts w' = Some (gm_base (w_grub_mounts ex_world) ++ mount_targets chroot)) /\
  exists L w'',
    teardown grub_install_fails w' = (inr tt, w'') /\ w_log w'' = w_log w' ++ L /\
    Permutation L (map umount_event (gm_base (w_grub_mounts w'))) /\
    gm_base (w_grub_mounts w'') = [].
Proof.
  apply (run_failure_leaves_cleanup_to_teardown grub_install_fails ex_step ex_world
           (CommandFailed ex_install_argv)).
  - vm_compute. reflexivity.
  - intros argv H. inversion H.
  - intros p. reflexivity.
Defined.

(** C3: the pattern of [get_image_loop_device] ends in a dollar sign,
    which also matches just before a final newline, so a partition path
    with a trailing newline is accepted: /dev/mapper/loop3p1 followed by a
    newline gives /dev/loop3 instead of failing. *)
Theorem get_image_loop_device_trailing_newline :
  get_image_loop_device ("/dev/mapper/loop3p1" +:+ nl) = inr "/dev/loop3".
Proof. vm_compute. reflexivity. Qed.




(** C5: a step whose grub value is present but is not uefi makes [run]
    fail with an assertion error and leaves the world unchanged: no mount,
    no directory, no command. *)
Theorem run_rejects_other_flavors cmd_ok step w flavor :
  step !! "grub" = Some flavor -> flavor <> "uefi" ->
  run cmd_ok step w = (inl AssertionError, w).
Proof.
  intros Hg Hne. unfold run.
  rewrite (bind_inr (dict_get step "grub") _ w flavor w)
    by (unfold dict_get; rewrite Hg; reflexivity).
  cbv beta. apply String.eqb_neq in Hne.
  rewrite (bind_inl (assert_ (String.eqb flavor "uefi")) _ w AssertionError w).
  - reflexivity.
  - unfold assert_. rewrite Hne. reflexivity.
Qed.

Lemma run_rejects_other_flavors_witness :
  <["grub" := "bios"]> ex_step !! "grub" = Some "bios" /\ "bios" <> "uefi" /\
  run all_ok (<["grub" := "bios"]> ex_step) ex_world = (inl AssertionError, ex_world).
Proof.
  assert (H1 : <["grub" := "bios"]> ex_step !! "grub" = Some "bios")
    by (vm_compute; reflexivity).
  assert (H2 : "bios" <> "uefi") by discriminate.
  split; [exact H1|split; [exact H2|]].
  exact (run_rejects_other_flavors all_ok (<["grub" := "bios"]> ex_step) ex_world "bios" H1 H2).
Defined.

(** C6 (counterexample): the step of the scenario without its device key
    passes the required-key check, and [run] then fails on the lookup of
    device with a key error, not with a missing-keys error. *)
Lemma required_keys_accept_step_without_device :
  missing_keys get_required_keys ex_step_nodevice = [] /\
  run_step all_ok ex_step_nodevice ex_world = (inl (KeyError "device"), ex_world).
Proof. vm_compute. split; reflexivity. Qed.

(** C6 (amended): the required keys are only grub and root-fs. A step
    lacking either is rejected with a missing-keys error before any
    action; a step that has both passes the check and is handed to [run],
    whatever other keys it lacks. When such a step lacks device,
    root-part or efi-part, [run] fails before any action: with an
    assertion error when its grub value is not uefi, and with a key error
    when it is. *)
Theorem required_keys_are_grub_and_rootfs :
  get_required_keys = ["grub"; "root-fs"] /\
  (forall cmd_ok step w,
     step !! "grub" = None \/ step !! "root-fs" = None ->
     exists ks, ks <> [] /\ run_step cmd_ok step w = (inl (MissingKeys ks), w)) /\
  (forall cmd_ok step,
     is_Some (step !! "grub") -> is_Some (step !! "root-fs") ->
     run_step cmd_ok step = run cmd_ok step) /\
  (forall cmd_ok step w,
     is_Some (step !! "grub") -> is_Some (step !! "root-fs") ->
     step !! "device" = None \/ step !! "root-part" = None \/ step !! "efi-part" = None ->
     (step !! "grub" <> Some "uefi" -> run_step cmd_ok step w = (inl AssertionError, w)) /\
     (step !! "grub" = Some "uefi" ->
        exists k, run_step cmd_ok step w = (inl (KeyError k), w))).
Proof.
  assert (Hpass : forall cmd_ok step,
     is_Some (step !! "grub") -> is_Some (step !! "root-fs") ->
     run_step cmd_ok step = run cmd_ok step).
  { intros cmd_ok step Hg Hr. unfold run_step, missing_keys, get_required_keys.
    cbn [List.filter].
    rewrite (bool_decide_eq_true_2 _ Hg), (bool_decide_eq_true_2 _ Hr).
    reflexivity. }
  split; [reflexivity|split; [|split; [exact Hpass|]]].
  - intros cmd_ok step w Hmiss. unfold run_step, missing_keys, get_required_keys.
    cbn [List.filter].
    assert (Hn : bool_decide (is_Some (@None string)) = false)
      by (apply bool_decide_eq_false_2; intros [x Hx]; discriminate).
    destruct Hmiss as [H|H]; rewrite H, Hn;
      [destruct (bool_decide (is_Some (step !! "root-fs")))
      |destruct (bool_decide (is_Some (step !! "grub")))];
      simpl; (eexists; split; [|reflexivity]); discriminate.
  - intros cmd_ok step w Hg Hr Hmiss. rewrite (Hpass cmd_ok step Hg Hr).
    split.
    + intros Hne. destruct Hg as [flavor Hg].
      apply (run_flavor_assert cmd_ok step w flavor Hg).
      intros ->. exact (Hne Hg).
    + intros Hu.
      apply (run_grub_uefi cmd_ok step w (fun res => exists k, res = (inl (KeyError k), w)) Hu).
      repeat (run_lookup; try (eexists; reflexivity)).
      exfalso. destruct Hmiss as [H|[H|H]]; congruence.
Qed.

(** C7: [mount] first creates the destination directory when it is
    missing, then runs the mount command, and appends the destination to
    [grub_mounts] only when that command succeeds; when it fails, [mount]
    raises the failure and [grub_mounts] is unchanged. The destination is
    the normalized path chroot/./mount_point when chroot is not empty and
    does not end in a slash. *)
Theorem mount_appends_after_success :
  (forall cmd_ok chroot path mount_point mount_opts w,
     let cp := chroot_path chroot mount_point in
     let argv := ["mount"] ++ gm_base mount_opts ++ [path; cp] in
     let res := mount cmd_ok chroot path mount_point mount_opts w in
     w_log (snd res) =
       w_log w ++ (if existsb (String.eqb cp) (w_paths w) then [] else [EMakedirs cp])
               ++ [ERun argv] /\
     In cp (w_paths (snd res)) /\
     (cmd_ok argv = true -> fst res = inr tt /\
        w_grub_mounts (snd res) = Some (gm_base (w_grub_mounts w) ++ [cp])) /\
     (cmd_ok argv = false -> fst res = inl (CommandFailed argv) /\
        w_grub_mounts (snd res) = w_grub_mounts w)) /\
  (forall chroot mount_point,
     chroot <> EmptyString -> last_char chroot <> Some slash ->
     chroot_path chroot mount_point = normpath (chroot +:+ "/." +:+ mount_point)).
Proof.
  split.
  - intros cmd_ok chroot path mount_point mount_opts w cp argv res. subst res.
    rewrite (mount_effect cmd_ok chroot path mount_point mount_opts w).
    fold cp argv. simpl.
    split; [reflexivity|split].
    + destruct (existsb (String.eqb cp) (w_paths w)) eqn:Ex; [|left; reflexivity].
      apply existsb_exists in Ex as [x [Hx Hq]]. apply String.eqb_eq in Hq. subst x.
      exact Hx.
    + split; intros Hok; rewrite Hok; split; reflexivity.
  - intros chroot mount_point Hne Hlast. unfold chroot_path, path_join.
    replace (startswith ("." +:+ mount_point) "/") with false by reflexivity.
    destruct (String.eqb chroot EmptyString) eqn:E;
      [apply String.eqb_eq in E; contradiction|].
    rewrite bool_decide_eq_false_2 by exact Hlast. reflexivity.
Qed.

(** C8: with no tracked mount ([grub_mounts] absent or empty), [unmount]
    returns normally and changes nothing (in particular runs no umount);
    and a second call after a call that returned normally does the same. *)
Theorem unmount_idle_when_nothing_tracked :
  (forall cmd_ok w,
     w_grub_mounts w = None \/ w_grub_mounts w = Some [] ->
     unmount cmd_ok w = (inr tt, w)) /\
  (forall cmd_ok w,
     fst (unmount cmd_ok w) = inr tt ->
     unmount cmd_ok (snd (unmount cmd_ok w)) = (inr tt, snd (unmount cmd_ok w))).
Proof.
  split.
  - intros cmd_ok w H. apply unmount_noop. exact H.
  - intros cmd_ok w H. destruct (unmount cmd_ok w) as [r w'] eqn:Hu.
    simpl in H |- *. subst r.
    apply unmount_noop. exact (unmount_drained cmd_ok w w' Hu).
Qed.

(** C9: a successful [mount] creates [grub_mounts] when it is absent and
    appends its destination otherwise, a failed one leaves it as it was;
    starting from a state without [grub_mounts], a failing [run] leaves it
    absent or holding the first j of the mount points /dev, /proc, /sys,
    /boot/efi in this order; and whenever [unmount] returns normally the
    list is absent or empty. *)
Theorem grub_mounts_lifecycle :
  (forall cmd_ok chroot path mount_point mount_opts w,
     let cp := chroot_path chroot mount_point in
     w_grub_mounts (snd (mount cmd_ok chroot path mount_point mount_opts w)) =
       if cmd_ok (["mount"] ++ gm_base mount_opts ++ [path; cp])
       then Some (gm_base (w_grub_mounts w) ++ [cp]) else w_grub_mounts w) /\
  (forall cmd_ok step w e,
     w_grub_mounts w = None -> fst (run cmd_ok step w) = inl e -> not_umount_failure e ->
     w_grub_mounts (snd (run cmd_ok step w)) = None \/
     exists rootfs chroot j,
       step !! "root-fs" = Some rootfs /\ w_mounts w !! rootfs = Some chroot /\
       1 <= j <= 4 /\
       w_grub_mounts (snd (run cmd_ok step w)) = Some (firstn j (mount_targets chroot))) /\
  (forall cmd_ok w,
     fst (unmount cmd_ok w) = inr tt ->
     w_grub_mounts (snd (unmount cmd_ok w)) = None \/
     w_grub_mounts (snd (unmount cmd_ok w)) = Some []).
Proof.
  split; [|split].
  - intros cmd_ok chroot path mount_point mount_opts w cp.
    rewrite (mount_effect cmd_ok chroot path mount_point mount_opts w). reflexivity.
  - intros cmd_ok step w e Hnone Hr Hnu.
    destruct (run cmd_ok step w) as [r w'] eqn:Hrun. simpl in Hr |- *. subst r.
    apply run_raises in Hrun as [_ Hst]; [|exact Hnu].
    destruct Hst as [(-> & _) | [(rootfs & chroot & j & H1 & H2 & Hj & Hg & _)
                                | (rootfs & chroot & H1 & H2 & Hg & _)]].
    + left. exact Hnone.
    + rewrite Hg, Hnone. destruct j as [|j]; [left; reflexivity|].
      right. exists rootfs, chroot, (S j). repeat split; auto; lia.
    + right. exists rootfs, chroot, 4. repeat split; auto.
      rewrite Hg, Hnone. reflexivity.
  - intros cmd_ok w H. destruct (unmount cmd_ok w) as [r w'] eqn:Hu.
    simpl in H |- *. subst r. exact (unmount_drained cmd_ok w w' Hu).
Qed.

(** C10: for a step whose grub value is uefi, when one of device,
    root-fs, root-part, efi-part is missing from the step, or root-fs is
    not in [state.mounts], or root-part or efi-part is not in
    [state.parts], [run] fails with a key error and leaves the world
    unchanged: no directory, no mount, no command. *)
Theorem run_key_error_before_effects cmd_ok step w :
  step !! "grub" = Some "uefi" ->
  (step !! "device" = None \/ step !! "root-fs" = None \/
   step !! "root-part" = None \/ step !! "efi-part" = None \/
   (exists rootfs, step !! "root-fs" = Some rootfs /\ w_mounts w !! rootfs = None) \/
   (exists rp, step !! "root-part" = Some rp /\ w_parts w !! rp = None) \/
   (exists ep, step !! "efi-part" = Some ep /\ w_parts w !! ep = None)) ->
  exists k, run cmd_ok step w = (inl (KeyError k), w).
Proof.
  intros Hg Hmiss.
  apply (run_grub_uefi cmd_ok step w (fun res => exists k, res = (inl (KeyError k), w)) Hg).
  repeat (run_lookup; try (eexists; reflexivity)).
  exfalso.
  destruct Hmiss as [H|[H|[H|[H|[(x & Hx & H)|[(x & Hx & H)|(x & Hx & H)]]]]]];
    congruence.
Qed.

Lemma run_key_error_before_effects_witness :
  ex_step_nodevice !! "grub" = Some "uefi" /\ ex_step_nodevice !! "device" = None /\
  exists k, run all_ok ex_step_nodevice ex_world = (inl (KeyError k), ex_world).
Proof.
  assert (H1 : ex_step_nodevice !! "grub" = Some "uefi") by (vm_compute; reflexivity).
  assert (H2 : ex_step_nodevice !! "device" = None) by (vm_compute; reflexivity).
  split; [exact H1|split; [exact H2|]].
  exact (run_key_error_before_effects all_ok ex_step_nodevice ex_world H1 (or_introl H2)).
Defined.

Lemma get_image_loop_device_partition_witness :
  get_image_loop_device ("/dev/mapper/loop" +:+ "12" +:+ "p" +:+ "3") =
    inr ("/dev/loop" +:+ "12").
Proof.
  apply get_image_loop_device_partition; [discriminate|discriminate|reflexivity|reflexivity].
Defined.

(* ================================================================== *)
(** * Further properties of the plugin *)

(** ** [get_image_loop_device] accepts nothing else *)

Lemma strip_prefix_some (p : string) : forall s t,
  strip_prefix p s = Some t -> s = p +:+ t.
Proof.
  induction p as [|a p IH]; intros s t H.
  - simpl in H. inversion H. reflexivity.
  - destruct s as [|b s]; simpl in H; [discriminate|].
    destruct (Ascii.eqb a b) eqn:E; [|discriminate].
    apply Ascii.eqb_eq in E. subst b. rewrite append_cons. f_equal. exact (IH s t H).
Qed.

Lemma span_digits_spec (s : string) : forall d r,
  span_digits s = (d, r) -> s = d +:+ r /\ digits_only d = true.
Proof.
  induction s as [|c s IH]; intros d r H.
  - simpl in H. inversion H. split; reflexivity.
  - simpl in H. destruct (is_digit c) eqn:Hc.
    + destruct (span_digits s) as [d' r'] eqn:E. injection H as <- <-.
      destruct (IH d' r' eq_refl) as [-> Hd]. rewrite append_cons.
      split; [reflexivity|]. simpl. rewrite Hc, Hd. reflexivity.
    + injection H as <- <-. split; reflexivity.
Qed.

(** X2: [get_image_loop_device] returns a device only for a path
    /dev/mapper/loop<N>p<M>, with N and M non-empty strings of decimal
    digits, possibly followed by one newline; the device is then
    /dev/loop<N>. *)
Theorem get_image_loop_device_sound s dev :
  get_image_loop_device s = inr dev ->
  exists n m, n <> EmptyString /\ m <> EmptyString /\
    digits_only n = true /\ digits_only m = true /\
    (s = "/dev/mapper/loop" +:+ n +:+ "p" +:+ m \/
     s = "/dev/mapper/loop" +:+ n +:+ "p" +:+ m +:+ nl) /\
    dev = "/dev/loop" +:+ n.
Proof.
  unfold get_image_loop_device.
  destruct (negb (startswith s "/dev/mapper/loop")); [discriminate|].
  unfold loop_re_match.
  destruct (strip_prefix "/dev/mapper/loop" s) as [r|] eqn:Hs; [|discriminate].
  apply strip_prefix_some in Hs.
  destruct (span_digits r) as [d1 r1] eqn:H1.
  apply span_digits_spec in H1 as [Hr Dd1].
  destruct (String.eqb d1 EmptyString) eqn:E1; [discriminate|].
  destruct r1 as [|p r2]; [discriminate|].
  destruct (Ascii.eqb p "p"%char) eqn:Ep; [|discriminate].
  apply Ascii.eqb_eq in Ep. subst p.
  destruct (span_digits r2) as [d2 r3] eqn:H2.
  apply span_digits_spec in H2 as [Hr2 Dd2].
  destruct (String.eqb d2 EmptyString) eqn:E2; [discriminate|].
  destruct (String.eqb r3 EmptyString || String.eqb r3 nl) eqn:E3; [|discriminate].
  intros H. inversion H; subst. clear H.
  apply String.eqb_neq in E1, E2.
  exists d1, d2. repeat split; auto.
  apply orb_prop in E3 as [E3|E3]; apply String.eqb_eq in E3; subst r3.
  - left. rewrite string_app_nil_r. reflexivity.
  - right. reflexivity.
Qed.

Lemma get_image_loop_device_sound_witness :
  get_image_loop_device "/dev/mapper/loop3p1" = inr "/dev/loop3" /\
  exists n m, n <> EmptyString /\ m <> EmptyString /\
    digits_only n = true /\ digits_only m = true /\
    ("/dev/mapper/loop3p1" = "/dev/mapper/loop" +:+ n +:+ "p" +:+ m \/
     "/dev/mapper/loop3p1" = "/dev/mapper/loop" +:+ n +:+ "p" +:+ m +:+ nl) /\
    "/dev/loop3" = "/dev/loop" +:+ n.
Proof.
  assert (H : get_image_loop_device "/dev/mapper/loop3p1" = inr "/dev/loop3")
    by (vm_compute; reflexivity).
  split; [exact H|].
  exact (get_image_loop_device_sound "/dev/mapper/loop3p1" "/dev/loop3" H).
Defined.

(** ** [unmount] when a umount fails *)

Section UnmountFailure.
Variable cmd_ok : list string -> bool.

Lemma unmount_loop_fail (pre post : list string) (x : string) :
  forall fuel w,
  length pre < fuel ->
  w_grub_mounts w = Some (rev (pre ++ x :: post)) ->
  (forall p, In p pre -> cmd_ok ["umount"; p] = true) ->
  cmd_ok ["umount"; x] = false ->
  unmount_loop cmd_ok fuel w =
    (inl (CommandFailed ["umount"; x]),
     mkWorld (w_mounts w) (w_parts w) (Some (rev post)) (w_paths w) (w_files w)
             (w_log w ++ map umount_event (pre ++ [x]))).
Proof.
  induction pre as [|a pre IH]; intros fuel w Hlen Hg Hok Hx.
  - destruct fuel as [|fuel]; [simpl in Hlen; lia|].
    cbn [unmount_loop]. rewrite Hg. simpl app. simpl rev.
    destruct (rev post ++ [x]) as [|y ys] eqn:Hrev;
      [destruct (rev post); discriminate|].
    rewrite <- Hrev, last_last, removelast_last.
    unfold mbind, M_bind, modify at 1.
    unfold runcmd. simpl. rewrite Hx. reflexivity.
  - destruct fuel as [|fuel]; [simpl in Hlen; lia|].
    simpl in Hlen. cbn [unmount_loop].
    rewrite Hg. simpl app. simpl rev.
    destruct (rev (pre ++ x :: post) ++ [a]) as [|y ys] eqn:Hrev;
      [destruct (rev (pre ++ x :: post)); discriminate|].
    rewrite <- Hrev, last_last, removelast_last.
    unfold mbind, M_bind, modify at 1.
    unfold runcmd. simpl. rewrite (Hok a (or_introl eq_refl)).
    rewrite IH by (simpl; auto; try lia; intros; apply Hok; right; auto).
    simpl. rewrite <- app_assoc. reflexivity.
Qed.

End UnmountFailure.

(** X3: when the umount of a recorded path fails, [unmount] raises the
    failure at once. The paths recorded before it have been unmounted (in
    recorded order); the failing path has been popped from [grub_mounts]
    and is not retried; the paths recorded after it stay in [grub_mounts],
    in reverse order. *)
Theorem unmount_stops_at_failed_umount cmd_ok w pre x post :
  w_grub_mounts w = Some (pre ++ x :: post) ->
  (forall p, In p pre -> cmd_ok ["umount"; p] = true) ->
  cmd_ok ["umount"; x] = false ->
  unmount cmd_ok w =
    (inl (CommandFailed ["umount"; x]),
     mkWorld (w_mounts w) (w_parts w) (Some (rev post)) (w_paths w) (w_files w)
             (w_log w ++ map umount_event (pre ++ [x]))).
Proof.
  intros Hg Hok Hx. unfold unmount. rewrite Hg.
  unfold mbind, M_bind, modify.
  rewrite (unmount_loop_fail cmd_ok pre post x); simpl; auto.
  rewrite length_app. simpl. lia.
Qed.

Lemma unmount_stops_at_failed_umount_witness :
  let ok := fun argv => negb (bool_decide (argv = ["umount"; "/tmp/root/proc"])) in
  let w := set_grub_mounts
             (Some ["/tmp/root/dev"; "/tmp/root/proc"; "/tmp/root/sys"]) ex_world in
  unmount ok w =
    (inl (CommandFailed ["umount"; "/tmp/root/proc"]),
     mkWorld (w_mounts w) (w_parts w) (Some (rev ["/tmp/root/sys"])) (w_paths w)
             (w_files w)
             (w_log w ++ map umount_event (["/tmp/root/dev"] ++ ["/tmp/root/proc"]))).
Proof.
  intros ok w.
  apply (unmount_stops_at_failed_umount ok w ["/tmp/root/dev"] "/tmp/root/proc"
           ["/tmp/root/sys"]).
  - reflexivity.
  - intros p [<-|[]]. vm_compute. reflexivity.
  - vm_compute. reflexivity.
Defined.

(** ** The rewrite of /etc/default/grub *)

Lemma cmdline_line_starts (ps : string) :
  startswith (cmdline_line ps) "GRUB_CMDLINE_LINUX_DEFAULT" = true.
Proof.
  unfold startswith, cmdline_line.
  change "GRUB_CMDLINE_LINUX_DEFAULT=" with ("GRUB_CMDLINE_LINUX_DEFAULT" +:+ "=").
  rewrite string_app_assoc. apply prefix_app.
Qed.

Lemma cmdline_line_breakfree (ps : string) :
  breakfree ps = true -> breakfree (cmdline_line ps) = true.
Proof.
  intros H. unfold cmdline_line. rewrite !breakfree_app, H. reflexivity.
Qed.

Lemma filter_idem {A} (f : A -> bool) (l : list A) :
  List.filter f (List.filter f l) = List.filter f l.
Proof.
  induction l as [|x l IH]; simpl; [reflexivity|].
  destruct (f x) eqn:Hf; simpl; [rewrite Hf, IH|]; auto.
Qed.

Lemma splitlines_grub_default_rewrite ps text :
  breakfree (String.concat " " ps) = true ->
  splitlines (grub_default_rewrite ps text) =
    List.filter (fun line => negb (startswith line "GRUB_CMDLINE_LINUX_DEFAULT"))
      (splitlines text) ++ [cmdline_line (String.concat " " ps)].
Proof.
  intros Hps. unfold grub_default_rewrite. apply splitlines_concat.
  - intros Hnil. apply app_eq_nil in Hnil as [_ Hnil]. discriminate.
  - apply Forall_app. split.
    + apply List.Forall_forall. intros x Hx. apply List.filter_In in Hx as [Hx _].
      exact (proj1 (List.Forall_forall _ _) (splitlines_breakfree text) x Hx).
    + constructor; [apply cmdline_line_breakfree, Hps|constructor].
Qed.

(** X4: when the kernel parameters contain no line break, rewriting the
    rewritten file changes nothing: running [set_grub_cmdline_config]
    again with the same parameters writes back the same text. *)
Theorem grub_default_rewrite_idempotent ps text :
  breakfree (String.concat " " ps) = true ->
  grub_default_rewrite ps (grub_default_rewrite ps text) = grub_default_rewrite ps text.
Proof.
  intros Hps.
  remember (grub_default_rewrite ps text) as out eqn:Hout.
  assert (Hl := splitlines_grub_default_rewrite ps text Hps).
  rewrite <- Hout in Hl.
  unfold grub_default_rewrite at 1. rewrite Hl, List.filter_app, filter_idem.
  cbn [List.filter]. rewrite cmdline_line_starts. cbn [negb]. rewrite app_nil_r.
  subst out. reflexivity.
Qed.

Lemma grub_default_rewrite_idempotent_witness :
  grub_default_rewrite kernel_params (grub_default_rewrite kernel_params "GRUB_TIMEOUT=5")
    = grub_default_rewrite kernel_params "GRUB_TIMEOUT=5".
Proof.
  apply grub_default_rewrite_idempotent. vm_compute. reflexivity.
Defined.

(** X5: when the kernel parameters contain no line break, the text that
    [set_grub_cmdline_config] writes uses the newline as its only line
    break: carriage returns, \r\n pairs and the other separators that
    [splitlines] accepts in the old file are all replaced by newlines. *)
Theorem grub_default_rewrite_lf_only ps text :
  breakfree (String.concat " " ps) = true ->
  lf_only (grub_default_rewrite ps text) = true.
Proof.
  intros Hps. unfold grub_default_rewrite.
  rewrite lf_only_app, lf_only_concat_nl; [reflexivity|].
  apply Forall_app. split.
  - apply List.Forall_forall. intros x Hx. apply List.filter_In in Hx as [Hx _].
    exact (proj1 (List.Forall_forall _ _) (splitlines_breakfree text) x Hx).
  - constructor; [apply cmdline_line_breakfree, Hps|constructor].
Qed.

Lemma grub_default_rewrite_lf_only_witness :
  lf_only (grub_default_rewrite kernel_params
             ("GRUB_TIMEOUT=5" +:+ String "013"%char nl)) = true.
Proof.
  apply grub_default_rewrite_lf_only. vm_compute. reflexivity.
Defined.

(** ** A successful [run] *)

Lemma commands_app (a b : list event) : commands (a ++ b) = commands a ++ commands b.
Proof. induction a as [|[] a IH]; simpl; rewrite ?IH; reflexivity. Qed.

Lemma commands_umounts (l : list string) :
  commands (map umount_event l) = map (fun p => ["umount"; p]) l.
Proof. induction l as [|p l IH]; simpl; rewrite ?IH; reflexivity. Qed.

Section AllCommandsSucceed.
Variable cmd_ok : list string -> bool.
Hypothesis cmd_all_ok : forall argv, cmd_ok argv = true.

Lemma runcmd_ok argv w : runcmd cmd_ok argv w = (inr tt, log_event (ERun argv) w).
Proof. unfold runcmd. rewrite cmd_all_ok. reflexivity. Qed.

Lemma mount_ok c p mp o w :
  exists w1, mount cmd_ok c p mp o w = (inr tt, w1) /\
    w_files w1 = w_files w /\
    w_grub_mounts w1 = Some (gm_base (w_grub_mounts w) ++ [chroot_path c mp]) /\
    commands (w_log w1) = commands (w_log w) ++ [["mount"] ++ gm_base o ++ [p; chroot_path c mp]].
Proof.
  rewrite (mount_effect cmd_ok c p mp o w), cmd_all_ok.
  eexists. split; [reflexivity|]. simpl. split; [reflexivity|split; [reflexivity|]].
  rewrite !commands_app. destruct (existsb _ _); simpl; rewrite ?app_nil_r; reflexivity.
Qed.

Lemma bind_mount_many_ok c ps : forall w,
  exists w1, bind_mount_many cmd_ok c ps w = (inr tt, w1) /\
    w_files w1 = w_files w /\
    w_grub_mounts w1 = recorded (w_grub_mounts w) (map (chroot_path c) ps) /\
    commands (w_log w1) =
      commands (w_log w) ++ map (fun p => ["mount"; "--bind"; p; chroot_path c p]) ps.
Proof.
  induction ps as [|p ps IH]; intros w.
  - exists w. rewrite app_nil_r. repeat split.
  - cbn [bind_mount_many].
    destruct (mount_ok c p p (Some ["--bind"]) w) as (w1 & Hm & Hf1 & Hg1 & Hc1).
    rewrite (bind_inr _ _ w tt w1 Hm). cbv beta.
    destruct (IH w1) as (w2 & Hb & Hf2 & Hg2 & Hc2).
    exists w2. split; [exact Hb|]. split; [congruence|]. split.
    + rewrite Hg2, Hg1, recorded_cons. reflexivity.
    + rewrite Hc2, Hc1, <- app_assoc. reflexivity.
Qed.

End AllCommandsSucceed.

(** X6: when every step key and state entry resolves, the partition has a
    loop device, /etc/default/grub exists in the chroot, every command
    succeeds and [run] returns normally (no directory creation or file
    write failed), it has run exactly these commands:
    the bind mounts of /dev, /proc and /sys, the mount of the EFI
    partition, apt-get install, grub-mkconfig, grub-install on the loop
    device, then one umount per recorded path (those recorded before,
    then the four new ones, in recorded order). It writes the rewritten
    /etc/default/grub, leaves [grub_mounts] empty, and a later [teardown]
    changes nothing. *)
Theorem run_success_commands cmd_ok step w device rootfs chroot root_part root_dev
    efi_part efi_dev image_dev text :
  (forall argv, cmd_ok argv = true) ->
  step !! "grub" = Some "uefi" -> step !! "device" = Some device ->
  step !! "root-fs" = Some rootfs -> w_mounts w !! rootfs = Some chroot ->
  step !! "root-part" = Some root_part -> w_parts w !! root_part = Some root_dev ->
  step !! "efi-part" = Some efi_part -> w_parts w !! efi_part = Some efi_dev ->
  get_image_loop_device root_dev = inr image_dev ->
  w_files w !! chroot_path chroot "/etc/default/grub" = Some text ->
  fst (run cmd_ok step w) = inr tt ->
  let w' := snd (run cmd_ok step w) in
  commands (w_log w') = commands (w_log w) ++
    [["mount"; "--bind"; "/dev"; chroot_path chroot "/dev"];
     ["mount"; "--bind"; "/proc"; chroot_path chroot "/proc"];
     ["mount"; "--bind"; "/sys"; chroot_path chroot "/sys"];
     ["mount"; efi_dev; chroot_path chroot "/boot/efi"];
     ["chroot"; chroot; "apt-get"; "-y"; "--no-show-progress"; "install"; "grub-efi-amd64"];
     ["chroot"; chroot; "grub-mkconfig"; "-o"; "/boot/grub/grub.cfg"];
     ["chroot"; chroot; "grub-install"; "--target=x86_64-efi"; "--no-nvram";
      "--force-extra-removable"; "--no-floppy"; "--modules=part_msdos part_gpt";
      "--grub-mkdevicemap=/boot/grub/device.map"; image_dev]] ++
    map (fun p => ["umount"; p]) (gm_base (w_grub_mounts w) ++ mount_targets chroot) /\
  w_files w' !! chroot_path chroot "/etc/default/grub" =
    Some (grub_default_rewrite kernel_params text) /\
  w_grub_mounts w' = Some [] /\
  teardown cmd_ok w' = (inr tt, w').
Proof.
  intros Hall Hg Hd Hr Hc Hrp Hrd Hep Hed Himg Hf _ w'. subst w'.
  apply (run_grub_uefi cmd_ok step w (fun res =>
    commands (w_log (snd res)) = _ /\
    w_files (snd res) !! chroot_path chroot "/etc/default/grub" =
      Some (grub_default_rewrite kernel_params text) /\
    w_grub_mounts (snd res) = Some [] /\ teardown cmd_ok (snd res) = (inr tt, snd res)) Hg).
  cbv beta.
  rewrite (bind_inr (dict_get step "device") _ w device w)
    by (unfold dict_get; rewrite Hd; reflexivity). cbv beta.
  rewrite (bind_inr (dict_get step "root-fs") _ w rootfs w)
    by (unfold dict_get; rewrite Hr; reflexivity). cbv beta.
  rewrite (bind_inr (gets w_mounts) _ w (w_mounts w) w) by reflexivity. cbv beta.
  rewrite (bind_inr (dict_get (w_mounts w) rootfs) _ w chroot w)
    by (unfold dict_get; rewrite Hc; reflexivity). cbv beta.
  rewrite (bind_inr (dict_get step "root-part") _ w root_part w)
    by (unfold dict_get; rewrite Hrp; reflexivity). cbv beta.
  rewrite (bind_inr (gets w_parts) _ w (w_parts w) w) by reflexivity. cbv beta.
  rewrite (bind_inr (dict_get (w_parts w) root_part) _ w root_dev w)
    by (unfold dict_get; rewrite Hrd; reflexivity). cbv beta.
  rewrite (bind_inr (dict_get step "efi-part") _ w efi_part w)
    by (unfold dict_get; rewrite Hep; reflexivity). cbv beta.
  rewrite (bind_inr (gets w_parts) _ w (w_parts w) w) by reflexivity. cbv beta.
  rewrite (bind_inr (dict_get (w_parts w) efi_part) _ w efi_dev w)
    by (unfold dict_get; rewrite Hed; reflexivity). cbv beta.
  rewrite (bind_inr (lift (get_image_loop_device root_dev)) _ w image_dev w)
    by (unfold lift; rewrite Himg; reflexivity). cbv beta.
  destruct (bind_mount_many_ok cmd_ok Hall chroot ["/dev"; "/proc"; "/sys"] w)
    as (w1 & Hb & Hf1 & Hg1 & Hc1).
  rewrite (bind_inr _ _ w tt w1 Hb). cbv beta.
  destruct (mount_ok cmd_ok Hall chroot efi_dev "/boot/efi" None w1)
    as (w2 & Hm & Hf2 & Hg2 & Hc2).
  rewrite (bind_inr _ _ w1 tt w2 Hm). cbv beta.
  unfold install_package, chroot_cmd.
  rewrite (bind_inr _ _ w2 tt _ (runcmd_ok cmd_ok Hall _ w2)). cbv beta.
  set (w3 := log_event (ERun (["chroot"; chroot] ++
              ["apt-get"; "-y"; "--no-show-progress"; "install"; "grub-efi-amd64"])) w2).
  assert (Hf3 : w_files w3 !! chroot_path chroot "/etc/default/grub" = Some text)
    by (subst w3; simpl; rewrite Hf2, Hf1; exact Hf).
  rewrite (bind_inr _ _ w3 tt _ (set_grub_ok chroot kernel_params w3 text Hf3)). cbv beta.
  rewrite (bind_inr _ _ _ tt _ (runcmd_ok cmd_ok Hall _ _)). cbv beta.
  rewrite (bind_inr _ _ _ tt _ (runcmd_ok cmd_ok Hall _ _)). cbv beta.
  match goal with |- context [unmount cmd_ok ?W] => set (w6 := W) end.
  assert (Hg6 : w_grub_mounts w6 = Some (gm_base (w_grub_mounts w) ++ mount_targets chroot)).
  { subst w6 w3. simpl. rewrite Hg2, Hg1. simpl. rewrite <- app_assoc. reflexivity. }
  assert (Hu := unmount_all cmd_ok _ w6 Hg6 (fun p _ => Hall _)).
  rewrite Hu. cbn [fst snd w_log w_files w_grub_mounts].
  split; [|split; [|split]].
  - rewrite commands_app, commands_umounts. subst w6 w3. simpl.
    rewrite !commands_app, Hc2, Hc1. simpl. rewrite <- !app_assoc. reflexivity.
  - subst w6 w3. simpl. apply lookup_insert_eq.
  - reflexivity.
  - unfold teardown. apply unmount_noop. right. reflexivity.
Qed.

Lemma run_success_commands_witness :
  let w' := snd (run all_ok ex_step ex_world) in
  commands (w_log w') = commands (w_log ex_world) ++
    [["mount"; "--bind"; "/dev"; chroot_path "/tmp/root" "/dev"];
     ["mount"; "--bind"; "/proc"; chroot_path "/tmp/root" "/proc"];
     ["mount"; "--bind"; "/sys"; chroot_path "/tmp/root" "/sys"];
     ["mount"; "/dev/mapper/loop3p2"; chroot_path "/tmp/root" "/boot/efi"];
     ["chroot"; "/tmp/root"; "apt-get"; "-y"; "--no-show-progress"; "install";
      "grub-efi-amd64"];
     ["chroot"; "/tmp/root"; "grub-mkconfig"; "-o"; "/boot/grub/grub.cfg"];
     ["chroot"; "/tmp/root"; "grub-install"; "--target=x86_64-efi"; "--no-nvram";
      "--force-extra-removable"; "--no-floppy"; "--modules=part_msdos part_gpt";
      "--grub-mkdevicemap=/boot/grub/device.map"; "/dev/loop3"]] ++
    map (fun p => ["umount"; p])
      (gm_base (w_grub_mounts ex_world) ++ mount_targets "/tmp/root") /\
  w_files w' !! chroot_path "/tmp/root" "/etc/default/grub" =
    Some (grub_default_rewrite kernel_params "GRUB_TIMEOUT=5") /\
  w_grub_mounts w' = Some [] /\
  teardown all_ok w' = (inr tt, w').
Proof.
  apply (run_success_commands all_ok ex_step ex_world "/img.raw" "root" "/tmp/root"
           "p1" "/dev/mapper/loop3p1" "p2" "/dev/mapper/loop3p2" "/dev/loop3"
           "GRUB_TIMEOUT=5");
    [intros argv; reflexivity | ..]; vm_compute; reflexivity.
Defined.

(** ** [chroot_path] on plain paths *)

Lemma split_go_slash_free (x : string) : forall cur rest,
  slash_free x = true ->
  split_go slash (x +:+ String slash rest) cur = (cur +:+ x) :: split_go slash rest EmptyString.
Proof.
  induction x as [|c x IH]; intros cur rest Hx.
  - rewrite append_nil_l, string_app_nil_r. reflexivity.
  - simpl in Hx. apply andb_prop in Hx as [Hc Hx]. apply negb_true_iff in Hc.
    rewrite append_cons. simpl. rewrite Hc, IH by exact Hx.
    rewrite string_app_assoc. reflexivity.
Qed.

Lemma split_go_slash_free_end (x : string) : forall cur,
  slash_free x = true -> split_go slash x cur = [cur +:+ x].
Proof.
  induction x as [|c x IH]; intros cur Hx.
  - rewrite string_app_nil_r. reflexivity.
  - simpl in Hx. apply andb_prop in Hx as [Hc Hx]. apply negb_true_iff in Hc.
    simpl. rewrite Hc, IH by exact Hx. rewrite string_app_assoc. reflexivity.
Qed.

Lemma plain_slash_free c : plain_component c = true -> slash_free c = true.
Proof. unfold plain_component. intros H. apply andb_prop in H as [_ H]. exact H. Qed.

Lemma split_go_concat (xs : list string) : forall rest,
  xs <> [] -> forallb plain_component xs = true ->
  split_go slash (String.concat "/" xs +:+ String slash rest) EmptyString =
    xs ++ split_go slash rest EmptyString.
Proof.
  induction xs as [|x xs IH]; intros rest Hne Hp; [congruence|].
  simpl in Hp. apply andb_prop in Hp as [Hx Hxs]. apply plain_slash_free in Hx.
  destruct xs as [|y ys].
  - cbn [String.concat]. rewrite split_go_slash_free by exact Hx. reflexivity.
  - change (String.concat "/" (x :: y :: ys)) with (x +:+ "/" +:+ String.concat "/" (y :: ys)).
    rewrite !string_app_assoc. change ("/" +:+ ?r) with (String slash r).
    rewrite split_go_slash_free by exact Hx.
    rewrite IH by (discriminate || exact Hxs). reflexivity.
Qed.

Lemma split_go_concat_end (xs : list string) :
  xs <> [] -> forallb plain_component xs = true ->
  split_go slash (String.concat "/" xs) EmptyString = xs.
Proof.
  induction xs as [|x xs IH]; intros Hne Hp; [congruence|].
  simpl in Hp. apply andb_prop in Hp as [Hx Hxs]. apply plain_slash_free in Hx.
  destruct xs as [|y ys].
  - cbn [String.concat]. rewrite split_go_slash_free_end by exact Hx. reflexivity.
  - change (String.concat "/" (x :: y :: ys)) with (x +:+ "/" +:+ String.concat "/" (y :: ys)).
    change ("/" +:+ ?r) with (String slash r).
    rewrite split_go_slash_free by exact Hx.
    rewrite IH by (discriminate || exact Hxs). reflexivity.
Qed.

Lemma fold_normpath_plain (xs : list string) : forall acc,
  forallb plain_component xs = true ->
  fold_left (normpath_step 1) xs acc = acc ++ xs.
Proof.
  induction xs as [|x xs IH]; intros acc Hp; simpl; [rewrite app_nil_r; reflexivity|].
  apply andb_prop in Hp as [Hx Hxs].
  unfold plain_component in Hx.
  apply andb_prop in Hx as [Hx _]. apply andb_prop in Hx as [Hx H2].
  apply andb_prop in Hx as [H0 H1]. apply negb_true_iff in H0, H1, H2.
  unfold normpath_step at 2. rewrite H0, H1, H2. cbn [orb negb].
  rewrite IH by exact Hxs. rewrite <- app_assoc. reflexivity.
Qed.

Lemma normpath_step_empty n acc : normpath_step n acc EmptyString = acc.
Proof. reflexivity. Qed.

Lemma normpath_step_dot n acc : normpath_step n acc "." = acc.
Proof. reflexivity. Qed.

Lemma last_char_app (a b : string) :
  b <> EmptyString -> last_char (a +:+ b) = last_char b.
Proof.
  intros Hb. induction a as [|x a IH]; [reflexivity|].
  rewrite append_cons. cbn [last_char].
  destruct (a +:+ b) eqn:E; [|exact IH].
  destruct a, b; first [discriminate | congruence].
Qed.

Lemma slash_free_last_char (s : string) :
  slash_free s = true -> last_char s <> Some slash.
Proof.
  induction s as [|c s IH]; intros H; [discriminate|].
  simpl in H. apply andb_prop in H as [Hc Hs]. apply negb_true_iff in Hc.
  cbn [last_char]. destruct s as [|d s'].
  - intros E. inversion E; subst. rewrite Ascii.eqb_refl in Hc. discriminate.
  - apply IH, Hs.
Qed.

Lemma concat_plain_shape (xs : list string) :
  xs <> [] -> forallb plain_component xs = true ->
  String.concat "/" xs <> EmptyString /\ last_char (String.concat "/" xs) <> Some slash.
Proof.
  induction xs as [|x xs IH]; intros Hne Hp; [congruence|].
  simpl in Hp. apply andb_prop in Hp as [Hx Hxs].
  destruct xs as [|y ys].
  - cbn [String.concat]. split.
    + unfold plain_component in Hx. intros ->. discriminate.
    + apply slash_free_last_char, plain_slash_free, Hx.
  - destruct (IH ltac:(discriminate) Hxs) as [Hn Hl].
    change (String.concat "/" (x :: y :: ys)) with (x +:+ "/" +:+ String.concat "/" (y :: ys)).
    split.
    + destruct x; discriminate.
    + rewrite last_char_app by discriminate.
      change ("/" +:+ ?r) with (String slash r). cbn [last_char].
      destruct (String.concat "/" (y :: ys)); [congruence|exact Hl].
Qed.

Lemma concat_plain_head (xs : list string) :
  xs <> [] -> forallb plain_component xs = true ->
  exists a t, String.concat "/" xs = String a t /\ a <> slash.
Proof.
  destruct xs as [|x xs]; intros Hne Hp; [congruence|].
  simpl in Hp. apply andb_prop in Hp as [Hx _].
  assert (Hsf := plain_slash_free x Hx).
  destruct x as [|a x']; [discriminate|].
  simpl in Hsf. apply andb_prop in Hsf as [Ha _]. apply negb_true_iff in Ha.
  destruct xs as [|y ys].
  - exists a, x'. split; [reflexivity|]. intros ->. rewrite Ascii.eqb_refl in Ha. discriminate.
  - exists a, (x' +:+ "/" +:+ String.concat "/" (y :: ys)). split; [reflexivity|].
    intros ->. rewrite Ascii.eqb_refl in Ha. discriminate.
Qed.

(** X7: for a chroot and a mount point that are absolute paths made of
    plain components (none empty, . or .., none holding a slash), with at
    least one component in the chroot, [chroot_path] is the chroot
    followed by the mount point; the mount point / gives the chroot
    itself. *)
Theorem chroot_path_plain cs ps :
  cs <> [] -> forallb plain_component cs = true -> forallb plain_component ps = true ->
  chroot_path (abs_path cs) (abs_path ps) = abs_path (cs ++ ps).
Proof.
  intros Hne Hcs Hps.
  destruct (concat_plain_shape cs Hne Hcs) as [_ Hlast].
  destruct (concat_plain_head cs Hne Hcs) as (a & t & Ehead & Ha).
  unfold chroot_path, path_join.
  replace (startswith ("." +:+ abs_path ps) "/") with false by reflexivity.
  replace (String.eqb (abs_path cs) EmptyString) with false by reflexivity.
  rewrite bool_decide_eq_false_2.
  2:{ unfold abs_path. rewrite last_char_app by (destruct (String.concat "/" cs); congruence).
      exact Hlast. }
  set (path := abs_path cs +:+ "/" +:+ ("." +:+ abs_path ps)).
  assert (Hsplit : split slash path =
            "" :: cs ++ "." :: (match ps with [] => [EmptyString] | _ => ps end)).
  { subst path. unfold split, abs_path.
    rewrite string_app_assoc. change ("/" +:+ ?r) with (String slash r).
    cbn [split_go]. rewrite Ascii.eqb_refl. f_equal.
    change ("/" +:+ ("." +:+ ("/" +:+ ?r)))
      with (String slash (String "."%char (String slash r))).
    rewrite split_go_concat by assumption. f_equal.
    cbn [split_go]. rewrite Ascii.eqb_refl. f_equal.
    destruct ps as [|p ps']; [reflexivity|].
    apply split_go_concat_end; [discriminate|exact Hps]. }
  assert (Hpath : path = String slash (String a (t +:+ "/" +:+ ("." +:+ abs_path ps)))).
  { subst path. unfold abs_path. rewrite string_app_assoc, Ehead. reflexivity. }
  unfold normpath.
  replace (String.eqb path EmptyString) with false by (rewrite Hpath; reflexivity).
  replace (startswith path "/") with true by (rewrite Hpath; reflexivity).
  replace (startswith path "//") with false.
  2:{ rewrite Hpath. unfold startswith. cbn [String.prefix].
      destruct (ascii_dec "/"%char slash) as [_|n]; [|exfalso; apply n; reflexivity].
      destruct (ascii_dec "/"%char a) as [E|_]; [|reflexivity].
      exfalso. apply Ha. rewrite <- E. reflexivity. }
  cbn [andb negb]. rewrite Hsplit.
  change ("" :: cs ++ "." :: ?r) with ([EmptyString] ++ cs ++ ["."] ++ r).
  rewrite !fold_left_app. cbn [fold_left].
  rewrite normpath_step_empty, (fold_normpath_plain cs [] Hcs), normpath_step_dot.
  cbn [app].
  destruct ps as [|p ps'].
  - cbn [fold_left]. rewrite normpath_step_empty, app_nil_r. reflexivity.
  - rewrite (fold_normpath_plain (p :: ps') cs Hps). reflexivity.
Qed.

Lemma chroot_path_plain_witness :
  chroot_path (abs_path ["tmp"; "root"]) (abs_path ["boot"; "efi"]) =
    abs_path (["tmp"; "root"] ++ ["boot"; "efi"]).
Proof.
  apply chroot_path_plain; [discriminate|reflexivity|reflexivity].
Defined.

(** X8: [chroot_path] does not confine the mount point to the chroot: for
    a chroot made of plain components, the mount point /.. names the
    parent directory of the chroot (the root directory when the chroot has
    a single component). *)
Theorem chroot_path_dotdot_escapes cs c :
  forallb plain_component (cs ++ [c]) = true ->
  chroot_path (abs_path (cs ++ [c])) "/.." = abs_path cs.
Proof.
  intros Hp.
  assert (Hne : cs ++ [c] <> []) by (destruct cs; discriminate).
  destruct (concat_plain_shape _ Hne Hp) as [_ Hlast].
  destruct (concat_plain_head _ Hne Hp) as (a & t & Ehead & Ha).
  assert (Hcs : forallb plain_component cs = true).
  { rewrite forallb_app in Hp. apply andb_prop in Hp as [H _]. exact H. }
  assert (Hc : plain_component c = true).
  { rewrite forallb_app in Hp. apply andb_prop in Hp as [_ H]. simpl in H.
    rewrite andb_true_r in H. exact H. }
  unfold chroot_path, path_join.
  replace (startswith ("." +:+ "/..") "/") with false by reflexivity.
  replace (String.eqb (abs_path (cs ++ [c])) EmptyString) with false by reflexivity.
  rewrite bool_decide_eq_false_2.
  2:{ unfold abs_path.
      rewrite last_char_app by (destruct (String.concat "/" (cs ++ [c])); congruence).
      exact Hlast. }
  set (path := abs_path (cs ++ [c]) +:+ "/" +:+ ("." +:+ "/..")).
  assert (Hsplit : split slash path = "" :: (cs ++ [c]) ++ [".";".."]).
  { subst path. unfold split, abs_path.
    rewrite string_app_assoc. change ("/" +:+ ?r) with (String slash r).
    cbn [split_go]. rewrite Ascii.eqb_refl. f_equal.
    change ("/" +:+ ("." +:+ "/..")) with (String slash "./.."%string).
    rewrite split_go_concat by assumption. reflexivity. }
  assert (Hpath : path = String slash (String a (t +:+ "/" +:+ ("." +:+ "/..")))).
  { subst path. unfold abs_path. rewrite string_app_assoc, Ehead. reflexivity. }
  unfold normpath.
  replace (String.eqb path EmptyString) with false by (rewrite Hpath; reflexivity).
  replace (startswith path "/") with true by (rewrite Hpath; reflexivity).
  replace (startswith path "//") with false.
  2:{ rewrite Hpath. unfold startswith. cbn [String.prefix].
      destruct (ascii_dec "/"%char slash) as [_|n]; [|exfalso; apply n; reflexivity].
      destruct (ascii_dec "/"%char a) as [E|_]; [|reflexivity].
      exfalso. apply Ha. rewrite <- E. reflexivity. }
  cbn [andb negb]. rewrite Hsplit.
  change ("" :: ?l ++ [".";".."]) with ([EmptyString] ++ l ++ ["."] ++ [".."]).
  rewrite (fold_left_app (normpath_step 1) [EmptyString]).
  rewrite (fold_left_app (normpath_step 1) (cs ++ [c])).
  rewrite (fold_left_app (normpath_step 1) ["."]). cbn [fold_left].
  rewrite normpath_step_empty, (fold_normpath_plain (cs ++ [c]) [] Hp), normpath_step_dot.
  cbn [app].
  assert (Hcc : String.eqb c ".." = false).
  { unfold plain_component in Hc. apply andb_prop in Hc as [Hc _].
    apply andb_prop in Hc as [_ Hc]. apply negb_true_iff in Hc. exact Hc. }
  assert (Hstep : normpath_step 1 (cs ++ [c]) ".." = cs).
  { unfold normpath_step. cbn [String.eqb orb negb].
    rewrite last_last, Hcc, removelast_last.
    destruct (bool_decide (cs ++ [c] = [])) eqn:E.
    - apply bool_decide_eq_true_1 in E. exfalso. exact (Hne E).
    - reflexivity. }
  rewrite Hstep. destruct cs as [|c0 cs']; reflexivity.
Qed.

Lemma chroot_path_dotdot_escapes_witness :
  chroot_path (abs_path (["tmp"] ++ ["root"])) "/.." = abs_path ["tmp"].
Proof.
  apply chroot_path_dotdot_escapes. reflexivity.
Defined.
